(** * Mesh input/output tutorial (tutorials/Part2_mesh_io/mesh_io.ipynb)

    A shallow embedding of the Python cells of the notebook that read a
    TetGen-style node file and element file, hand the mesh to the
    OpenCMISS-Iron objects, and write the mesh out again (text lists,
    numpy arrays, VTK arrays), together with the properties of that code.

    Conventions of the embedding:
    - a text file is the string of the characters still to be read, as
      Python's text mode delivers them (ASCII, line ends already
      translated to LF); [readline] is [file.readline()];
    - a raised exception is a value [Raise e] of the [result] monad; what
      a cell had done before it raised is dropped with the exception;
    - Python floats are kept abstract behind the [PyFloat] interface: the
      notebook only parses them ([float(tok)]), prints them ([str]) and
      carries them around;
    - Python lists indexed by position are Rocq lists read with [!!] and
      written with [<[i:=v]>], an out-of-range access raising
      [IndexError];
    - the OpenCMISS-Iron objects are external to the notebook: they are
      modelled as stores that return what was last put into them.  The
      checks the library makes on its arguments are not modelled: a run
      of the model that succeeds stands for a run in which the library
      accepted every call. *)

From Stdlib Require Import ZArith String Ascii List Lia DecimalString.
From stdpp Require Import base option list gmap.
Import ListNotations.

Local Open Scope string_scope.
Local Open Scope Z_scope.

(** ** Exceptions and the error monad *)

(** [ValueError], [IndexError], [TypeError] and [OverflowError] are the
    Python built-in exceptions; [CMFEError] is the error of the
    OpenCMISS-Iron bindings.  The last four names are the error taxonomy of
    the specification; no cell of the notebook defines or raises them. *)
Inductive exn : Set :=
  | ValueError
  | IndexError
  | TypeError
  | OverflowError
  | CMFEError
  | MalformedHeaderError
  | TruncatedFileError
  | DanglingNodeReferenceError
  | InvertedElementError.

Inductive result (A : Type) : Type :=
  | Ok (a : A)
  | Raise (e : exn).
Arguments Ok {A} a.
Arguments Raise {A} e.

Definition rbind {A B} (r : result A) (k : A -> result B) : result B :=
  match r with
  | Ok a => k a
  | Raise e => Raise e
  end.

Notation "'do' x <- r ; k" := (rbind r (fun x => k))
  (at level 10, x pattern, r at level 100, k at level 200).

Definition of_option {A} (e : exn) (o : option A) : result A :=
  match o with
  | Some a => Ok a
  | None => Raise e
  end.

Definition is_ok {A} (r : result A) : bool :=
  match r with Ok _ => true | Raise _ => false end.

(** ** Python strings *)

Module PyStr.

(** [str.isspace()] on the ASCII range: TAB, LF, VT, FF, CR, the four
    separators FS GS RS US, and the space. *)
Definition isspace (c : ascii) : bool :=
  let n := N_of_ascii c in
  ((9 <=? n) && (n <=? 13) || (28 <=? n) && (n <=? 32))%N.

Definition starts_word (s : string) : bool :=
  match s with
  | String c _ => negb (isspace c)
  | EmptyString => false
  end.

(** [s.split()]: the maximal runs of non-whitespace characters of [s], in
    order; never an empty token. *)
Fixpoint split (s : string) : list string :=
  match s with
  | EmptyString => []
  | String c s' =>
      let rest := split s' in
      if isspace c then rest
      else if starts_word s' then
        match rest with
        | t :: ts => String c t :: ts
        | [] => [String c EmptyString]
        end
      else String c EmptyString :: rest
  end.

(** A word: a non-empty string without whitespace. *)
Fixpoint no_space (s : string) : bool :=
  match s with
  | EmptyString => true
  | String c s' => negb (isspace c) && no_space s'
  end.

Definition word (s : string) : bool :=
  match s with
  | EmptyString => false
  | _ => no_space s
  end.

Definition newline : ascii := "010"%char.

(** [f.readline()] on the characters still to be read: the line up to and
    including its newline, or what is left when there is no newline, and
    the characters that remain.  At end of file the line is empty. *)
Fixpoint readline (f : string) : string * string :=
  match f with
  | EmptyString => (EmptyString, EmptyString)
  | String c f' =>
      if Ascii.eqb c newline then (String c EmptyString, f')
      else let (l, r) := readline f' in (String c l, r)
  end.

(** The file after [k] calls of [readline], and the line the next call
    returns. *)
Definition skip_lines (k : nat) (f : string) : string :=
  Nat.iter k (fun r => snd (readline r)) f.

Definition nth_line (k : nat) (f : string) : string :=
  fst (readline (skip_lines k f)).

(** Number of lines of a file: one per newline, and one more for a last
    line without newline. *)
Fixpoint line_count (f : string) : nat :=
  match f with
  | EmptyString => 0
  | String c f' =>
      if Ascii.eqb c newline then S (line_count f')
      else match f' with
           | EmptyString => 1
           | _ => line_count f'
           end
  end.

Definition digit_of (c : ascii) : option Z :=
  let n := N_of_ascii c in
  if ((48 <=? n) && (n <=? 57))%N then Some (Z.of_N n - 48) else None.

(** Digits of a decimal literal; a single underscore may sit between two
    digits.  [prev] tells whether the previous character was a digit. *)
Fixpoint digits (acc : Z) (prev : bool) (s : string) : option Z :=
  match s with
  | EmptyString => if prev then Some acc else None
  | String c s' =>
      match digit_of c with
      | Some d => digits (10 * acc + d) true s'
      | None =>
          if Ascii.eqb c "_"%char && prev then digits acc false s' else None
      end
  end.

(** [int(tok)] for a token without surrounding blanks: optional sign,
    then decimal digits. *)
Definition int_of_str (s : string) : option Z :=
  match s with
  | String c s' =>
      if Ascii.eqb c "-"%char then Z.opp <$> digits 0 false s'
      else if Ascii.eqb c "+"%char then digits 0 false s'
      else digits 0 false s
  | EmptyString => None
  end.

(** [str(n)] for an integer. *)
Definition str_of_int (n : Z) : string :=
  NilZero.string_of_int (Z.to_int n).

End PyStr.

(** ** Python floats *)

(** The operations of [float] the notebook uses.  [float_of_str] is
    [float(tok)] ([None] when it raises [ValueError]), [float_str] is
    [str(x)], [float_of_int] the conversion numpy applies to an integer
    stored in a float array, and [int_of_float] is [int(x)]. *)
Class PyFloat := {
  float : Type;
  float_of_str : string -> option float;
  float_str : float -> string;
  float_of_int : Z -> float;
  int_of_float : float -> result Z
}.

(** ** Python values and list cells *)

(** The values the notebook keeps in its lists: integers, floats and the
    tokens of a line before they are converted. *)
Inductive pyval `{PyFloat} : Type :=
  | VInt (n : Z)
  | VFloat (x : float)
  | VStr (s : string).

(** A list of lists, such as [NodeCoords] or [ElemMap]. *)
Abbreviation table := (list (list pyval)).

(** The calls [(element, nodes)] received by a mesh elements object. *)
Abbreviation mesh_elements := (list (Z * list Z)).

Section Notebook.
Context `{PyFloat}.

(** [int(v)] and [float(v)]. *)
Definition py_int (v : pyval) : result Z :=
  match v with
  | VInt n => Ok n
  | VFloat x => int_of_float x
  | VStr s => of_option ValueError (PyStr.int_of_str s)
  end.

Definition py_float (v : pyval) : result float :=
  match v with
  | VInt n => Ok (float_of_int n)
  | VFloat x => Ok x
  | VStr s => of_option ValueError (float_of_str s)
  end.

(** [repr(v)], which [str] of a list applies to its elements (a string
    is quoted; the escapes inside it are left out). *)
Definition py_repr (v : pyval) : string :=
  match v with
  | VInt n => PyStr.str_of_int n
  | VFloat x => float_str x
  | VStr s => "'" ++ s ++ "'"
  end.

(** What the bindings accept for an integer and for a double argument. *)
Definition as_int (v : pyval) : result Z :=
  match v with
  | VInt n => Ok n
  | _ => Raise TypeError
  end.

Definition as_double (v : pyval) : result float :=
  match v with
  | VInt n => Ok (float_of_int n)
  | VFloat x => Ok x
  | VStr _ => Raise TypeError
  end.

(** [[[0 for m in range(cols)] for n in range(rows)]]; [range] of a
    negative number is empty. *)
Definition zeros (rows cols : Z) : table :=
  replicate (Z.to_nat rows) (replicate (Z.to_nat cols) (VInt 0)).

(** [t[i][j]] and [t[i][j] = v] for non-negative [i] and [j]. *)
Definition load2 (t : table) (i j : nat) : result pyval :=
  match t !! i with
  | Some row => of_option IndexError (row !! j)
  | None => Raise IndexError
  end.

Definition store2 (t : table) (i j : nat) (v : pyval) : result table :=
  match t !! i with
  | Some row =>
      if decide (j < length row)%nat then Ok (<[i := <[j := v]> row]> t)
      else Raise IndexError
  | None => Raise IndexError
  end.

(** [for i in range(count): body], started at index [i]. *)
Fixpoint for_range {S : Type} (count i : nat)
    (body : nat -> S -> result S) (s : S) : result S :=
  match count with
  | O => Ok s
  | Datatypes.S count' =>
      do s' <- body i s ;
      for_range count' (Datatypes.S i) body s'
  end.

(** ** Cell 3: reading the node file *)

Record node_data := {
  num_nodes : Z;
  num_coords : Z;
  num_attributes : Z;
  boundary_markers : Z;
  NodeNums : table;
  NodeCoords : table
}.

(** The first line: four integers. *)
Definition read_node_header (f : string) : result (Z * Z * Z * Z * string) :=
  let (line, f) := PyStr.readline f in
  match PyStr.split line with
  | [t0; t1; t2; t3] =>
      do n <- of_option ValueError (PyStr.int_of_str t0) ;
      do d <- of_option ValueError (PyStr.int_of_str t1) ;
      do a <- of_option ValueError (PyStr.int_of_str t2) ;
      do b <- of_option ValueError (PyStr.int_of_str t3) ;
      Ok (n, d, a, b, f)
  | _ => Raise ValueError
  end.

(** One turn of the loop over the nodes.  The line is split and unpacked
    into four targets, assigned from left to right; then the four cells
    are converted in place. *)
Definition read_node_line (i : nat) (st : table * table * string)
    : result (table * table * string) :=
  let '(nums, coords, f) := st in
  let (line, f) := PyStr.readline f in
  match PyStr.split line with
  | [t0; t1; t2; t3] =>
      do nums <- store2 nums i 0 (VStr t0) ;
      do coords <- store2 coords i 0 (VStr t1) ;
      do coords <- store2 coords i 1 (VStr t2) ;
      do coords <- store2 coords i 2 (VStr t3) ;
      do v <- load2 nums i 0 ;
      do n <- py_int v ;
      do nums <- store2 nums i 0 (VInt n) ;
      do v <- load2 coords i 0 ;
      do x <- py_float v ;
      do coords <- store2 coords i 0 (VFloat x) ;
      do v <- load2 coords i 1 ;
      do y <- py_float v ;
      do coords <- store2 coords i 1 (VFloat y) ;
      do v <- load2 coords i 2 ;
      do z <- py_float v ;
      do coords <- store2 coords i 2 (VFloat z) ;
      Ok (nums, coords, f)
  | _ => Raise ValueError
  end.

Definition read_node_file (f : string) : result node_data :=
  do (n, d, a, b, f) <- read_node_header f ;
  let nums := zeros n 2 in
  let coords := zeros n d in
  do (nums, coords, _) <-
    for_range (Z.to_nat n) 0 read_node_line (nums, coords, f) ;
  Ok {| num_nodes := n; num_coords := d; num_attributes := a;
        boundary_markers := b; NodeNums := nums; NodeCoords := coords |}.

(** ** Cell 4: reading the element file *)

Record element_data := {
  num_elements : Z;
  nodes_per_ele : Z;
  ele_attributes : Z;
  ElemMap : table;
  Elemindex : table
}.

Definition read_elem_header (f : string) : result (Z * Z * Z * string) :=
  let (line, f) := PyStr.readline f in
  match PyStr.split line with
  | [t0; t1; t2] =>
      do n <- of_option ValueError (PyStr.int_of_str t0) ;
      do k <- of_option ValueError (PyStr.int_of_str t1) ;
      do a <- of_option ValueError (PyStr.int_of_str t2) ;
      Ok (n, k, a, f)
  | _ => Raise ValueError
  end.

(** One turn of the loop over the elements: five targets, left to right;
    the tokens stay strings. *)
Definition read_elem_line (i : nat) (st : table * table * string)
    : result (table * table * string) :=
  let '(index, map, f) := st in
  let (line, f) := PyStr.readline f in
  match PyStr.split line with
  | [t0; t1; t2; t3; t4] =>
      do index <- store2 index i 0 (VStr t0) ;
      do map <- store2 map i 0 (VStr t1) ;
      do map <- store2 map i 1 (VStr t2) ;
      do map <- store2 map i 2 (VStr t3) ;
      do map <- store2 map i 3 (VStr t4) ;
      Ok (index, map, f)
  | _ => Raise ValueError
  end.

Definition read_elem_file (f : string) : result element_data :=
  do (n, k, a, f) <- read_elem_header f ;
  let map := zeros n (k + a) in
  let index := zeros n 1 in
  do (index, map, _) <-
    for_range (Z.to_nat n) 0 read_elem_line (index, map, f) ;
  Ok {| num_elements := n; nodes_per_ele := k; ele_attributes := a;
        ElemMap := map; Elemindex := index |}.

(** ** The OpenCMISS-Iron objects *)

(** A field with one value per (node, component); a value never written
    is the one the field was initialised with. *)
Record field := {
  field_initial : float;
  field_values : gmap (Z * Z) float
}.

(** A field just created holds 0.0, the float of the integer 0. *)
Definition new_field : field :=
  {| field_initial := float_of_int 0; field_values := ∅ |}.

Definition ComponentValuesInitialiseDP (x : float) (fld : field) : field :=
  {| field_initial := x; field_values := ∅ |}.

Definition ParameterSetUpdateNodeDP (fld : field) (node component : Z)
    (x : float) : field :=
  {| field_initial := field_initial fld;
     field_values := <[(node, component) := x]> (field_values fld) |}.

Definition ParameterSetGetNodeDP (fld : field) (node component : Z) : float :=
  default (field_initial fld) (field_values fld !! (node, component)).

(** The mesh elements object: the calls of [NodesSet] in the order they
    were made; [NodesGet] answers with the latest call for the element. *)
Definition NodesSet (me : mesh_elements) (element : Z) (nodes : list Z)
    : mesh_elements :=
  (me ++ [(element, nodes)])%list.

Definition NodesGet (me : mesh_elements) (element : Z) : result (list Z) :=
  match list_find (λ c, c.1 = element) (reverse me) with
  | Some (_, c) => Ok c.2
  | None => Raise CMFEError
  end.

(** ** Cell 9: the elements of the mesh *)

Definition define_element (ed : element_data) (i : nat) (me : mesh_elements)
    : result mesh_elements :=
  do element <- load2 (Elemindex ed) i 0 ;
  do v0 <- load2 (ElemMap ed) i 0 ;
  do v1 <- load2 (ElemMap ed) i 1 ;
  do v2 <- load2 (ElemMap ed) i 2 ;
  do v3 <- load2 (ElemMap ed) i 3 ;
  do n0 <- py_int v0 ;
  do n1 <- py_int v1 ;
  do n2 <- py_int v2 ;
  do n3 <- py_int v3 ;
  do e <- py_int element ;
  Ok (NodesSet me e [n0; n1; n2; n3]).

Definition define_elements (ed : element_data) : result mesh_elements :=
  for_range (Z.to_nat (num_elements ed)) 0 (define_element ed) [].

(** ** Cell 13: the geometric field *)

(** The notebook runs on one computational node, so the domain test of the
    loop holds for every node. *)
Definition set_node_geometry (nd : node_data) (i : nat) (geo : field)
    : result field :=
  do v <- load2 (NodeNums nd) i 0 ;
  do node <- as_int v ;
  do vx <- load2 (NodeCoords nd) i 0 ;
  do vy <- load2 (NodeCoords nd) i 1 ;
  do vz <- load2 (NodeCoords nd) i 2 ;
  do x <- as_double vx ;
  let geo := ParameterSetUpdateNodeDP geo node 1 x in
  do y <- as_double vy ;
  let geo := ParameterSetUpdateNodeDP geo node 2 y in
  do z <- as_double vz ;
  Ok (ParameterSetUpdateNodeDP geo node 3 z).

Definition set_geometry (nd : node_data) : result field :=
  for_range (Z.to_nat (num_nodes nd)) 0 (set_node_geometry nd) new_field.

(** ** Cells 3 to 15: loading a mesh *)

Record session := {
  node_input : node_data;
  elem_input : element_data;
  meshElements : mesh_elements;
  geometric_field : field;
  solution_field : field
}.

(** Cell 15 initialises the solution field to 1000.0, the float of the
    integer 1000. *)
Definition load (node_text elem_text : string) : result session :=
  do nd <- read_node_file node_text ;
  do ed <- read_elem_file elem_text ;
  do me <- define_elements ed ;
  do geo <- set_geometry nd ;
  Ok {| node_input := nd; elem_input := ed; meshElements := me;
        geometric_field := geo;
        solution_field :=
          ComponentValuesInitialiseDP (float_of_int 1000) new_field |}.

(** [nodes.NumberOfNodesGet()] and [mesh.NumberOfElementsGet()]: the
    numbers the objects were created with. *)
Definition NumberOfNodesGet (s : session) : Z := num_nodes (node_input s).
Definition NumberOfElementsGet (s : session) : Z :=
  num_elements (elem_input s).

(** ** Cell 18: the list of nodes *)

(** [t[i] = row] for a non-negative [i]. *)
Definition store1 {A} (t : list A) (i : nat) (row : A) : result (list A) :=
  if decide (i < length t)%nat then Ok (<[i := row]> t) else Raise IndexError.

(** [coordinate_system.DimensionGet()]: cell 2 sets the dimension to 3. *)
Definition DimensionGet : Z := 3.

Definition node_record (s : session) (i : nat) : list pyval :=
  let node := Z.of_nat i + 1 in
  [VInt node;
   VFloat (ParameterSetGetNodeDP (geometric_field s) node 1);
   VFloat (ParameterSetGetNodeDP (geometric_field s) node 2);
   VFloat (ParameterSetGetNodeDP (geometric_field s) node 3);
   VFloat (ParameterSetGetNodeDP (solution_field s) node 1)].

Definition build_nodes_list (s : session) : result table :=
  let num_nodes := NumberOfNodesGet s in
  let num_coords := DimensionGet in
  for_range (Z.to_nat num_nodes) 0
    (fun i t => store1 t i (node_record s i))
    (zeros num_nodes (num_coords + 2)).

(** ** Cells 19 and 20: the text files *)

Fixpoint join (sep : string) (l : list string) : string :=
  match l with
  | [] => ""
  | [x] => x
  | x :: l' => x ++ sep ++ join sep l'
  end.

(** [str(line)] of a list. *)
Definition str_list (line : list pyval) : string :=
  "[" ++ join ", " (py_repr <$> line) ++ "]".

(** [file.writelines([str(line) + "\n" for line in lines])] on a new
    file: the text of the file. *)
Fixpoint writelines (lines : list string) : string :=
  match lines with
  | [] => ""
  | l :: lines' => l ++ writelines lines'
  end.

Definition list_file (lines : table) : string :=
  writelines
    ((fun line => str_list line ++ String PyStr.newline "") <$> lines).

(** [l[k]] for a non-negative [k]. *)
Definition index {A} (l : list A) (k : nat) : result A :=
  of_option IndexError (l !! k).

Definition element_record (s : session) (j : nat) : result (list Z) :=
  let elemidx := Z.of_nat j + 1 in
  do elemnodes <- NodesGet (meshElements s) elemidx ;
  do n0 <- index elemnodes 0 ;
  do n1 <- index elemnodes 1 ;
  do n2 <- index elemnodes 2 ;
  do n3 <- index elemnodes 3 ;
  Ok [elemidx; n0; n1; n2; n3].

Definition build_elements_list (s : session) : result (list (list Z)) :=
  let num_elem := NumberOfElementsGet s in
  for_range (Z.to_nat num_elem) 0
    (fun j t => do row <- element_record s j ; store1 t j row)
    (replicate (Z.to_nat num_elem) (replicate 5 0)).

Definition node_file_out (nodes_list : table) : string :=
  list_file nodes_list.

Definition elem_file_out (elements_list : list (list Z)) : string :=
  list_file ((fun row : list Z => VInt <$> row) <$> elements_list).

(** ** Cell 21: the numpy arrays *)

Definition is_str (v : pyval) : bool :=
  match v with VStr _ => true | _ => false end.
Definition is_float (v : pyval) : bool :=
  match v with VFloat _ => true | _ => false end.

Definition py_str (v : pyval) : string :=
  match v with
  | VInt n => PyStr.str_of_int n
  | VFloat x => float_str x
  | VStr s => s
  end.

(** The common element type numpy gives to an array built from a Python
    list: strings if there is one, else doubles if there is a float, else
    integers. *)
Definition np_cast (l : list pyval) (v : pyval) : pyval :=
  if existsb is_str l then VStr (py_str v)
  else if existsb is_float l then
    match v with VInt n => VFloat (float_of_int n) | _ => v end
  else v.

Definition np_array (l : list pyval) : list pyval := np_cast l <$> l.

Definition np_array2 (t : table) : table :=
  (fun row : list pyval => np_cast (List.concat t) <$> row) <$> t.

(** The four [np.save] calls, in order: file name and saved array. *)
Definition numpy_export (nodes_list : table)
    : result (list (string * list pyval)) :=
  do r1 <- index nodes_list 1 ;
  let nodesx := np_array r1 in
  do r2 <- index nodes_list 2 ;
  let nodesy := np_array r2 in
  do r3 <- index nodes_list 3 ;
  let nodesz := np_array r3 in
  do r4 <- index nodes_list 4 ;
  let nodesolution := np_array r4 in
  Ok [("CARDIOMYOCYTE_OUTPUT.x.npy", nodesx);
      ("CARDIOMYOCYTE_OUTPUT.y.npy", nodesy);
      ("CARDIOMYOCYTE_OUTPUT.z.npy", nodesz);
      ("CARDIOMYOCYTE_OUTPUT.sol.npy", nodesolution)].

(** ** The VTK cell *)

Record vtk := {
  points : table;
  cells : list (string * list (list Z));
  point_data : list (string * list float)
}.

(** [np.array(elements_list)[:,1:5] - 1]: the column slice needs a
    two-dimensional array, which an empty list does not give. *)
Definition cells_array (elements_list : list (list Z))
    : result (list (list Z)) :=
  match elements_list with
  | [] => Raise IndexError
  | _ => Ok ((fun row => (fun n => n - 1) <$> take 4 (drop 1 row))
               <$> elements_list)
  end.

(** [np.zeros(n)]: an array of [n] doubles 0.0; numpy refuses a negative
    [n] with [ValueError]. *)
Definition np_zeros (n : Z) : result (list float) :=
  if n <? 0 then Raise ValueError
  else Ok (replicate (Z.to_nat n) (float_of_int 0)).

Definition solution_field_nodes (s : session) : result (list float) :=
  let num_nodes := NumberOfNodesGet s in
  do arr <- np_zeros num_nodes ;
  for_range (Z.to_nat num_nodes) 0
    (fun i a =>
       let node := Z.of_nat i + 1 in
       store1 a i (ParameterSetGetNodeDP (solution_field s) node 1))
    arr.

Definition vtk_export (s : session) (elements_list : list (list Z))
    : result vtk :=
  let pts := np_array2 (NodeCoords (node_input s)) in
  do ca <- cells_array elements_list ;
  do sol <- solution_field_nodes s ;
  Ok {| points := pts; cells := [("tetra", ca)];
        point_data := [("solution", sol)] |}.

(** ** Views of a loaded mesh *)

(** The record of node [i + 1] as a numpy array of doubles holds it: the
    node number converted, then the three coordinates and the solution. *)
Definition node_record_doubles (s : session) (i : nat) : list pyval :=
  let node := Z.of_nat i + 1 in
  [VFloat (float_of_int node);
   VFloat (ParameterSetGetNodeDP (geometric_field s) node 1);
   VFloat (ParameterSetGetNodeDP (geometric_field s) node 2);
   VFloat (ParameterSetGetNodeDP (geometric_field s) node 3);
   VFloat (ParameterSetGetNodeDP (solution_field s) node 1)].

(** The VTK arrays of a pair of input files. *)
Definition vtk_of (node_text elem_text : string) : result vtk :=
  do s <- load node_text elem_text ;
  do elements_list <- build_elements_list s ;
  vtk_export s elements_list.

(** The coordinates of a node of the loaded mesh, as integers. *)
Definition int_coordinates (s : session) (node : Z) : result (Z * Z * Z) :=
  do x <- int_of_float (ParameterSetGetNodeDP (geometric_field s) node 1) ;
  do y <- int_of_float (ParameterSetGetNodeDP (geometric_field s) node 2) ;
  do z <- int_of_float (ParameterSetGetNodeDP (geometric_field s) node 3) ;
  Ok (x, y, z).

(** Cells 3 to 20: from the two input files to the two text files. *)
Definition text_export (node_text elem_text : string)
    : result (string * string) :=
  do s <- load node_text elem_text ;
  do nodes_list <- build_nodes_list s ;
  do elements_list <- build_elements_list s ;
  Ok (node_file_out nodes_list, elem_file_out elements_list).

(** ** The notebook, from the two input files to its outputs *)

Record outputs := {
  out_node_file : string;
  out_elem_file : string;
  out_numpy : list (string * list pyval);
  out_vtk : vtk
}.

Definition notebook (node_text elem_text : string) : result outputs :=
  do s <- load node_text elem_text ;
  do nodes_list <- build_nodes_list s ;
  do elements_list <- build_elements_list s ;
  do arrays <- numpy_export nodes_list ;
  do v <- vtk_export s elements_list ;
  Ok {| out_node_file := node_file_out nodes_list;
        out_elem_file := elem_file_out elements_list;
        out_numpy := arrays; out_vtk := v |}.

End Notebook.

(** ** A float model to run the notebook on *)

(** Floats named by their shortest decimal form.  A token is accepted when
    it already is that form: an optional minus sign, an integer part
    without superfluous leading zero, a point, a fractional part without
    superfluous trailing zero, at most fifteen digits in all, neither a
    negative zero nor a number below 0.0001.  On such a token Python's
    [float] followed by [str] gives the token back, so on these tokens the
    model agrees with Python; Python accepts more tokens than this model
    does, and the examples below use none of those. *)
Module DecimalFloat.

Definition is_digit (c : ascii) : bool :=
  match PyStr.digit_of c with Some _ => true | None => false end.

Fixpoint all_digits (s : string) : bool :=
  match s with
  | EmptyString => true
  | String c s' => is_digit c && all_digits s'
  end.

(** The text before the first point and the text after it. *)
Fixpoint cut_point (s : string) : option (string * string) :=
  match s with
  | EmptyString => None
  | String c s' =>
      if Ascii.eqb c "."%char then Some (EmptyString, s')
      else match cut_point s' with
           | Some (i, f) => Some (String c i, f)
           | None => None
           end
  end.

Fixpoint last_char (s : string) : option ascii :=
  match s with
  | EmptyString => None
  | String c EmptyString => Some c
  | String _ s' => last_char s'
  end.

Definition shortest_unsigned (s : string) : bool :=
  match cut_point s with
  | Some (i, f) =>
      all_digits i && all_digits f
      && (0 <? String.length i)%nat && (0 <? String.length f)%nat
      && (String.length i + String.length f <=? 15)%nat
      && (String.eqb i "0" || negb (String.prefix "0" i))
      && (String.eqb f "0" || negb (bool_decide (last_char f = Some "0"%char)))
      && negb (String.eqb i "0" && String.prefix "0000" f)
  | None => false
  end.

Definition shortest (s : string) : bool :=
  match s with
  | String c s' =>
      if Ascii.eqb c "-"%char
      then shortest_unsigned s' && negb (String.eqb s' "0.0")
      else shortest_unsigned s
  | EmptyString => false
  end.

Definition of_str (s : string) : option string :=
  if shortest s then Some s else None.

Definition of_int (n : Z) : string := PyStr.str_of_int n ++ ".0".

(** [int(x)]: the integer part. *)
Definition to_int (x : string) : result Z :=
  match cut_point x with
  | Some (i, _) => of_option ValueError (PyStr.int_of_str i)
  | None => Raise ValueError
  end.

#[export] Instance decimal_float : PyFloat := {|
  float := string;
  float_of_str := of_str;
  float_str := fun x => x;
  float_of_int := of_int;
  int_of_float := to_int
|}.

End DecimalFloat.

(** ** Sample meshes *)

Module Samples.
Import DecimalFloat.

(** The unit tetrahedron. *)
Definition tetra_nodes : string :=
"4 3 0 0
1 0.0 0.0 0.0
2 1.0 0.0 0.0
3 0.0 1.0 0.0
4 0.0 0.0 1.0
".

Definition tetra_elems : string :=
"1 4 0
1 1 2 3 4
".

(** The same element with two of its nodes exchanged. *)
Definition tetra_elems_reversed : string :=
"1 4 0
1 1 3 2 4
".

(** An element that names a node the node file does not have. *)
Definition dangling_elems : string :=
"1 4 0
1 1 2 3 99
".

(** The unit tetrahedron mirrored in the plane z = 0. *)
Definition mirrored_nodes : string :=
"4 3 0 0
1 0.0 0.0 0.0
2 1.0 0.0 0.0
3 0.0 1.0 0.0
4 0.0 0.0 -1.0
".

(** The unit tetrahedron with the lines of nodes 1 and 2 exchanged. *)
Definition swapped_nodes : string :=
"4 3 0 0
2 1.0 0.0 0.0
1 0.0 0.0 0.0
3 0.0 1.0 0.0
4 0.0 0.0 1.0
".

(** Two tetrahedra on five nodes. *)
Definition five_nodes : string :=
"5 3 0 0
1 0.0 0.0 0.0
2 1.0 0.0 0.0
3 0.0 1.0 0.0
4 0.0 0.0 1.0
5 1.0 1.0 1.0
".

Definition two_elems : string :=
"2 4 0
1 1 2 3 4
2 2 3 4 5
".

(** A header that declares ten nodes, followed by nine lines. *)
Definition truncated_nodes : string :=
"10 3 0 0
1 0.0 0.0 0.0
2 1.0 0.0 0.0
3 0.0 1.0 0.0
4 0.0 0.0 1.0
5 1.0 1.0 1.0
6 2.0 0.0 0.0
7 0.0 2.0 0.0
8 0.0 0.0 2.0
9 2.0 2.0 2.0
".

(** One attribute and a boundary marker declared: with the six tokens
    the header announces, and with four tokens. *)
Definition marked_nodes_six : string :=
"1 3 1 1
1 0.0 0.0 0.0 7.5 1
".

Definition marked_nodes_four : string :=
"1 3 1 1
1 0.0 0.0 0.0
".

(** Dimension 2: a plane node line, a line with a third coordinate and
    no node at all. *)
Definition plane_nodes : string :=
"1 2 0 0
1 0.5 0.25
".

Definition plane_nodes_four : string :=
"1 2 0 0
1 0.5 0.25 0.0
".

Definition plane_no_node : string :=
"0 2 0 0
".

(** The sessions the sample files load into. *)
Definition empty_session : session :=
  {| node_input := {| num_nodes := 0; num_coords := 0; num_attributes := 0;
                      boundary_markers := 0; NodeNums := []; NodeCoords := [] |};
     elem_input := {| num_elements := 0; nodes_per_ele := 0;
                      ele_attributes := 0; ElemMap := []; Elemindex := [] |};
     meshElements := []; geometric_field := new_field;
     solution_field := new_field |}.

Definition session_of (node_text elem_text : string) : session :=
  match load node_text elem_text with
  | Ok s => s
  | Raise _ => empty_session
  end.

Definition tetra_session : session := session_of tetra_nodes tetra_elems.
Definition reversed_session : session :=
  session_of tetra_nodes tetra_elems_reversed.
Definition dangling_session : session :=
  session_of tetra_nodes dangling_elems.
Definition swapped_session : session := session_of swapped_nodes tetra_elems.
Definition five_session : session := session_of five_nodes two_elems.

Definition mirrored_session : session :=
  session_of mirrored_nodes tetra_elems_reversed.

End Samples.

(** ** Orientation of a tetrahedron *)

(** The determinant of the three edge vectors that leave the first corner
    of a tetrahedron with integer corners: the Jacobian determinant of the
    linear map from the reference tetrahedron onto it.  It is positive for
    one winding of the four corners and negative for the reversed one. *)
Definition jacobian_det (p0 p1 p2 p3 : Z * Z * Z) : Z :=
  let '(x0, y0, z0) := p0 in
  let '(x1, y1, z1) := p1 in
  let '(x2, y2, z2) := p2 in
  let '(x3, y3, z3) := p3 in
  let '(ax, ay, az) := (x1 - x0, y1 - y0, z1 - z0) in
  let '(bx, by', bz) := (x2 - x0, y2 - y0, z2 - z0) in
  let '(cx, cy, cz) := (x3 - x0, y3 - y0, z3 - z0) in
  ax * (by' * cz - bz * cy) - ay * (bx * cz - bz * cx)
  + az * (bx * cy - by' * cx).

(** ** Loop invariants of the two readers *)

Section Invariants.
Context `{PyFloat}.

(** Row [j] of the node tables holds line [j] of [f0], converted. *)
Definition node_row_done (f0 : string) (d : nat) (nums coords : table)
    (j : nat) : Prop :=
  exists t0 t1 t2 t3 id x y z,
    PyStr.split (PyStr.nth_line j f0) = [t0; t1; t2; t3] /\
    PyStr.int_of_str t0 = Some id /\
    float_of_str t1 = Some x /\ float_of_str t2 = Some y /\
    float_of_str t3 = Some z /\
    nums !! j = Some [VInt id; VInt 0] /\
    coords !! j
      = Some (VFloat x :: VFloat y :: VFloat z :: replicate (d - 3) (VInt 0)) /\
    (3 <= d)%nat.

(** Before turn [k] of the node loop: [k] lines are consumed, the rows
    below [k] are filled and the rows from [k] on are still zero. *)
Definition node_loop_inv (f0 : string) (n d k : nat)
    (st : table * table * string) : Prop :=
  let '(nums, coords, f) := st in
  f = PyStr.skip_lines k f0 /\ length nums = n /\ length coords = n /\
  (forall j, (k <= j < n)%nat ->
     nums !! j = Some [VInt 0; VInt 0] /\
     coords !! j = Some (replicate d (VInt 0))) /\
  (forall j, (j < k)%nat -> node_row_done f0 d nums coords j).

(** Row [j] of the element tables holds the five tokens of line [j]. *)
Definition elem_row_done (f0 : string) (w : nat) (index map : table)
    (j : nat) : Prop :=
  exists t0 t1 t2 t3 t4,
    PyStr.split (PyStr.nth_line j f0) = [t0; t1; t2; t3; t4] /\
    index !! j = Some [VStr t0] /\
    map !! j
      = Some (VStr t1 :: VStr t2 :: VStr t3 :: VStr t4
              :: replicate (w - 4) (VInt 0)) /\
    (4 <= w)%nat.

Definition elem_loop_inv (f0 : string) (n w k : nat)
    (st : table * table * string) : Prop :=
  let '(index, map, f) := st in
  f = PyStr.skip_lines k f0 /\ length index = n /\ length map = n /\
  (forall j, (k <= j < n)%nat ->
     index !! j = Some [VInt 0] /\
     map !! j = Some (replicate w (VInt 0))) /\
  (forall j, (j < k)%nat -> elem_row_done f0 w index map j).

(** Call [j] of [NodesSet] passes line [j] of [f0] as it is written: the
    element number and the four node numbers, each token through [int]. *)
Definition element_handed (f0 : string) (me : mesh_elements) (j : nat)
    : Prop :=
  exists t0 t1 t2 t3 t4 e n1 n2 n3 n4,
    PyStr.split (PyStr.nth_line j f0) = [t0; t1; t2; t3; t4] /\
    PyStr.int_of_str t0 = Some e /\
    PyStr.int_of_str t1 = Some n1 /\ PyStr.int_of_str t2 = Some n2 /\
    PyStr.int_of_str t3 = Some n3 /\ PyStr.int_of_str t4 = Some n4 /\
    me !! j = Some (e, [n1; n2; n3; n4]).

(** The geometric field holds, for each of the first [k] nodes, the
    coordinates of the row of the same rank. *)
Definition geometry_set (coords : table) (k : nat) (geo : field) : Prop :=
  forall j x y z tail, (j < k)%nat ->
    coords !! j = Some (VFloat x :: VFloat y :: VFloat z :: tail) ->
    ParameterSetGetNodeDP geo (Z.of_nat j + 1) 1 = x /\
    ParameterSetGetNodeDP geo (Z.of_nat j + 1) 2 = y /\
    ParameterSetGetNodeDP geo (Z.of_nat j + 1) 3 = z.

End Invariants.

(** ** What the two readers make of a line *)

Section Lines.
Context `{PyFloat}.

(** The node number and the three coordinates cell 3 takes from a line:
    four tokens, the first through [int], the others through [float]. *)
Definition parse_node_line (line : string)
    : option (Z * float * float * float) :=
  match PyStr.split line with
  | [t0; t1; t2; t3] =>
      match PyStr.int_of_str t0, float_of_str t1, float_of_str t2,
            float_of_str t3 with
      | Some id, Some x, Some y, Some z => Some (id, x, y, z)
      | _, _, _, _ => None
      end
  | _ => None
  end.

(** The rows of [NodeNums] and [NodeCoords] for such a line, in a file of
    dimension [d]. *)
Definition node_nums_row (r : Z * float * float * float) : list pyval :=
  let '(id, _, _, _) := r in [VInt id; VInt 0].

Definition node_coords_row (d : Z) (r : Z * float * float * float)
    : list pyval :=
  let '(_, x, y, z) := r in
  VFloat x :: VFloat y :: VFloat z :: replicate (Z.to_nat d - 3) (VInt 0).

(** The element number and the four node numbers cells 4 and 9 take from
    a line: five tokens, each through [int]. *)
Definition parse_elem_line (line : string) : option (Z * list Z) :=
  match PyStr.split line with
  | [t0; t1; t2; t3; t4] =>
      match PyStr.int_of_str t0, PyStr.int_of_str t1, PyStr.int_of_str t2,
            PyStr.int_of_str t3, PyStr.int_of_str t4 with
      | Some e, Some n1, Some n2, Some n3, Some n4 =>
          Some (e, [n1; n2; n3; n4])
      | _, _, _, _, _ => None
      end
  | _ => None
  end.

(** The rows of [Elemindex] and [ElemMap] for a line of five tokens, in a
    file whose rows of [ElemMap] have [w] cells. *)
Definition elem_index_row (toks : list string) : list pyval :=
  VStr <$> take 1 toks.

Definition elem_map_row (w : Z) (toks : list string) : list pyval :=
  (VStr <$> drop 1 toks) ++ replicate (Z.to_nat w - 4) (VInt 0).

(** A result without the file that is left. *)
Definition tables_of (r : result (table * table * string))
    : result (table * table) :=
  match r with
  | Ok (a, b, _) => Ok (a, b)
  | Raise e => Raise e
  end.

End Lines.

(** A text without line end. *)
Fixpoint no_newline (s : string) : bool :=
  match s with
  | EmptyString => true
  | String c s' => negb (Ascii.eqb c PyStr.newline) && no_newline s'
  end.

(** ** More sample files *)

Module MoreSamples.
Import DecimalFloat Samples.

(** The unit tetrahedron with a header that declares dimension 4, an
    attribute and a marker, and with a line after the declared ones. *)
Definition wide_nodes : string :=
"4 4 1 1
1 0.0 0.0 0.0
2 1.0 0.0 0.0
3 0.0 1.0 0.0
4 0.0 0.0 1.0
# Generated by tetgen
".

Definition wide_node_data : node_data :=
  {| num_nodes := 4; num_coords := 4; num_attributes := 1;
     boundary_markers := 1;
     NodeNums := [[VInt 1; VInt 0]; [VInt 2; VInt 0]; [VInt 3; VInt 0];
                  [VInt 4; VInt 0]];
     NodeCoords := [[VFloat "0.0"; VFloat "0.0"; VFloat "0.0"; VInt 0];
                    [VFloat "1.0"; VFloat "0.0"; VFloat "0.0"; VInt 0];
                    [VFloat "0.0"; VFloat "1.0"; VFloat "0.0"; VInt 0];
                    [VFloat "0.0"; VFloat "0.0"; VFloat "1.0"; VInt 0]] |}.

Definition wide_session : session := session_of wide_nodes tetra_elems.

(** Three lines for two node numbers: number 1 comes twice, number 3
    never. *)
Definition repeated_nodes : string :=
"3 3 0 0
1 0.0 0.0 0.0
2 1.0 0.0 0.0
1 5.0 5.0 5.0
".

Definition repeated_node_data : node_data :=
  {| num_nodes := 3; num_coords := 3; num_attributes := 0;
     boundary_markers := 0;
     NodeNums := [[VInt 1; VInt 0]; [VInt 2; VInt 0]; [VInt 1; VInt 0]];
     NodeCoords := [[VFloat "0.0"; VFloat "0.0"; VFloat "0.0"];
                    [VFloat "1.0"; VFloat "0.0"; VFloat "0.0"];
                    [VFloat "5.0"; VFloat "5.0"; VFloat "5.0"]] |}.

(** An element line with tokens that are no integers. *)
Definition odd_elems : string :=
"1 4 0
1 a 2 3 four
".

Definition odd_elem_data : element_data :=
  {| num_elements := 1; nodes_per_ele := 4; ele_attributes := 0;
     ElemMap := [[VStr "a"; VStr "2"; VStr "3"; VStr "four"]];
     Elemindex := [[VStr "1"]] |}.

(** A header that declares three nodes per element. *)
Definition narrow_elems : string :=
"1 3 0
1 1 2 3 4
".

(** The element file of the tetrahedron with a line after the declared
    one. *)
Definition tetra_elems_commented : string :=
"1 4 0
1 1 2 3 4
# Generated by tetgen
".

Definition two_elem_data : element_data :=
  {| num_elements := 2; nodes_per_ele := 4; ele_attributes := 0;
     ElemMap := [[VStr "1"; VStr "2"; VStr "3"; VStr "4"];
                 [VStr "2"; VStr "3"; VStr "4"; VStr "5"]];
     Elemindex := [[VStr "1"]; [VStr "2"]] |}.

(** A header that declares a negative number of nodes. *)
Definition negative_nodes : string :=
"-1 3 0 0
".

(** The VTK arrays of two of the sample meshes. *)
Definition vtk_of_session (s : session) : vtk :=
  {| points := np_array2 (NodeCoords (node_input s));
     cells := [("tetra", [[0; 1; 2; 3]])];
     point_data :=
       [("solution", ["1000.0"; "1000.0"; "1000.0"; "1000.0"])] |}.

(** What the notebook gives on the mesh of five nodes. *)
Definition five_outputs : outputs :=
  match notebook five_nodes two_elems with
  | Ok out => out
  | Raise _ =>
      {| out_node_file := ""; out_elem_file := ""; out_numpy := [];
         out_vtk := {| points := []; cells := []; point_data := [] |} |}
  end.

End MoreSamples.

(** * Properties *)

(** ** Lines and tokens *)

Module PyStrFacts.
Import PyStr.

Lemma split_head c s :
  isspace c = false -> exists t ts, split (String c s) = String c t :: ts.
Proof.
  intros Hc. cbn [split]. rewrite Hc.
  destruct (starts_word s); [destruct (split s)|]; eauto.
Qed.

Lemma readline_cons c f :
  Ascii.eqb c newline = false ->
  readline (String c f) = (String c (readline f).1, (readline f).2).
Proof. intros Hc. cbn [readline]. rewrite Hc. by destruct (readline f). Qed.

Lemma line_count_0 f : line_count f = 0%nat -> f = EmptyString.
Proof.
  induction f as [|c f IH]; [done|]. cbn [line_count].
  destruct (Ascii.eqb c newline); [done|]. destruct f; [done|]. intros Hf.
  by specialize (IH Hf).
Qed.

Lemma line_count_readline f :
  line_count (readline f).2 = Nat.pred (line_count f).
Proof.
  induction f as [|c f IH]; [done|]. cbn [readline line_count].
  destruct (Ascii.eqb c newline); [done|].
  destruct (readline f) as [l r] eqn:Hr. cbn [snd] in *.
  destruct f as [|c' f']; [by inversion Hr|]. exact IH.
Qed.

Lemma skip_lines_S k f : skip_lines (S k) f = skip_lines k (readline f).2.
Proof. unfold skip_lines. by rewrite Nat.iter_succ_r. Qed.

Lemma nth_line_0 f : nth_line 0 f = (readline f).1.
Proof. done. Qed.

Lemma nth_line_S k f : nth_line (S k) f = nth_line k (readline f).2.
Proof. unfold nth_line. by rewrite skip_lines_S. Qed.

Lemma line_count_skip k f :
  line_count (skip_lines k f) = (line_count f - k)%nat.
Proof.
  revert f. induction k as [|k IH]; intros f.
  - cbn. lia.
  - rewrite skip_lines_S, IH, line_count_readline. lia.
Qed.

(** Past the last line, [readline] returns the empty string. *)
Lemma nth_line_eof k f : (line_count f <= k)%nat -> nth_line k f = EmptyString.
Proof.
  intros Hk. unfold nth_line.
  rewrite (line_count_0 (skip_lines k f)); [done|].
  rewrite line_count_skip. lia.
Qed.

(** Every token of [split] is a word, and a word is its own only token. *)
Lemma split_words s : Forall (fun t => word t = true) (split s).
Proof.
  induction s as [|c s IH]; [constructor|]. cbn [split].
  destruct (isspace c) eqn:Hc; [done|].
  destruct (starts_word s).
  - destruct (split s) as [|t ts].
    + constructor; [|done]. cbn. by rewrite Hc.
    + inversion IH as [|? ? Ht Hts]; subst. constructor; [|done].
      cbn. rewrite Hc. cbn. by destruct t.
  - constructor; [|done]. cbn. by rewrite Hc.
Qed.

Lemma split_word s : word s = true -> split s = [s].
Proof.
  induction s as [|c s IH]; [done|]. cbn [word no_space split].
  intros [Hc Hs]%andb_true_iff. apply negb_true_iff in Hc. rewrite Hc.
  destruct s as [|c' s']; [done|].
  cbn [no_space] in Hs. apply andb_true_iff in Hs as [Hc' Hs'].
  cbn [starts_word]. rewrite Hc'.
  rewrite IH; [done|]. cbn [word no_space]. by rewrite Hc', Hs'.
Qed.

(** [readline] cuts the file in two. *)
Lemma readline_app f : (readline f).1 ++ (readline f).2 = f.
Proof.
  induction f as [|c f IH]; [done|]. cbn [readline].
  destruct (Ascii.eqb c newline); [done|].
  destruct (readline f) as [l r]. cbn [fst snd] in *.
  change (String c (l ++ r) = String c f). by rewrite IH.
Qed.

(** The built-ins on a few inputs. *)
Example split_blanks :
  split (String "009" "1  0.5" ++ String "009" "2 " ++ String newline "")
  = ["1"; "0.5"; "2"].
Proof. reflexivity. Qed.

Example split_empty : split "" = [] /\ split (String newline "") = [].
Proof. split; reflexivity. Qed.

Example readline_twice :
  readline ("4 3" ++ String newline "1 0.0")
    = ("4 3" ++ String newline "", "1 0.0") /\
  readline "1 0.0" = ("1 0.0", "") /\
  readline "" = ("", "").
Proof. split_and!; reflexivity. Qed.

Example int_of_str_samples :
  int_of_str <$> ["12"; "-7"; "+3"; "007"; "1_000"; "1__0"; "_1"; "1_";
                  "1.0"; "[1,"; "-"; ""]
  = [Some 12; Some (-7); Some 3; Some 7; Some 1000; None; None; None;
     None; None; None; None].
Proof. reflexivity. Qed.

Example str_of_int_samples :
  str_of_int <$> [0; 7; -12; 1000] = ["0"; "7"; "-12"; "1000"].
Proof. reflexivity. Qed.

End PyStrFacts.

(** ** Loops and list cells *)

Section Cells.
Context `{PyFloat}.

Lemma for_range_inv {S} (P : nat -> S -> Prop) body count i s s' :
  P i s ->
  (forall k t t', (i <= k < i + count)%nat -> P k t -> body k t = Ok t' ->
     P (Datatypes.S k) t') ->
  for_range count i body s = Ok s' -> P (i + count)%nat s'.
Proof.
  revert i s. induction count as [|count IH]; intros i s Hs Hstep Hrun.
  - cbn in Hrun. inversion Hrun; subst. by rewrite Nat.add_0_r.
  - cbn in Hrun. destruct (body i s) as [t|] eqn:Hb; [|done].
    cbn in Hrun. rewrite <- Nat.add_succ_comm.
    apply (IH (Datatypes.S i) t); [| |done].
    + apply (Hstep i s); [lia|done..].
    + intros k u u' Hk. apply Hstep. lia.
Qed.

Lemma for_range_ok {S} (P : nat -> S -> Prop) body count i s :
  P i s ->
  (forall k t, (i <= k < i + count)%nat -> P k t ->
     exists t', body k t = Ok t' /\ P (Datatypes.S k) t') ->
  exists s', for_range count i body s = Ok s' /\ P (i + count)%nat s'.
Proof.
  revert i s. induction count as [|count IH]; intros i s Hs Hstep.
  - exists s. by rewrite Nat.add_0_r.
  - destruct (Hstep i s) as (t & Hb & Ht); [lia|done|].
    cbn. rewrite Hb. cbn. rewrite <- Nat.add_succ_comm.
    apply IH; [done|]. intros k u Hk. apply Hstep. lia.
Qed.

Lemma for_range_raise {S} (P : nat -> S -> Prop) (E : exn -> Prop)
    body count i s e :
  P i s ->
  (forall k t t', (i <= k < i + count)%nat -> P k t -> body k t = Ok t' ->
     P (Datatypes.S k) t') ->
  (forall k t e', (i <= k < i + count)%nat -> P k t -> body k t = Raise e' ->
     E e') ->
  for_range count i body s = Raise e -> E e.
Proof.
  revert i s. induction count as [|count IH]; intros i s Hs Hstep Herr Hrun.
  - done.
  - cbn in Hrun. destruct (body i s) as [t|e'] eqn:Hb.
    + cbn in Hrun. apply (IH (Datatypes.S i) t); [| | |done].
      * apply (Hstep i s); [lia|done..].
      * intros k u u' Hk. apply Hstep. lia.
      * intros k u u' Hk. apply Herr. lia.
    + cbn in Hrun. inversion Hrun; subst. apply (Herr i s); [lia|done..].
Qed.

Lemma store2_Ok (t : table) i j v row :
  t !! i = Some row -> (j < length row)%nat ->
  store2 t i j v = Ok (<[i := <[j := v]> row]> t).
Proof. intros Ht Hj. unfold store2. rewrite Ht. by case_decide. Qed.

Lemma store2_short (t : table) i j v row :
  t !! i = Some row -> (length row <= j)%nat ->
  store2 t i j v = Raise IndexError.
Proof. intros Ht Hj. unfold store2. rewrite Ht. case_decide; [lia|done]. Qed.

Lemma store2_insert (t : table) i j v r row :
  t !! i = Some row -> (j < length r)%nat ->
  store2 (<[i := r]> t) i j v = Ok (<[i := <[j := v]> r]> t).
Proof.
  intros Ht Hj. apply lookup_lt_Some in Ht.
  rewrite (store2_Ok _ i j v r); [|by apply list_lookup_insert_eq|done].
  by rewrite list_insert_insert_eq.
Qed.

Lemma store2_insert_short (t : table) i j v r row :
  t !! i = Some row -> (length r <= j)%nat ->
  store2 (<[i := r]> t) i j v = Raise IndexError.
Proof.
  intros Ht Hj. apply lookup_lt_Some in Ht.
  apply (store2_short _ i j v r); [by apply list_lookup_insert_eq|done].
Qed.

Lemma load2_Ok (t : table) i j row v :
  t !! i = Some row -> row !! j = Some v -> load2 t i j = Ok v.
Proof. intros Ht Hj. unfold load2. by rewrite Ht, Hj. Qed.

Lemma load2_insert (t : table) i j r row v :
  t !! i = Some row -> r !! j = Some v -> load2 (<[i := r]> t) i j = Ok v.
Proof.
  intros Ht Hj. apply lookup_lt_Some in Ht.
  apply (load2_Ok _ i j r); [by apply list_lookup_insert_eq|done].
Qed.

End Cells.

(** ** The two readers, turn by turn *)

Section Readers.
Context `{PyFloat}.
Import PyStr.

Lemma read_node_line_spec i (nums coords : table) f rn rc :
  nums !! i = Some rn -> (0 < length rn)%nat -> coords !! i = Some rc ->
  read_node_line i (nums, coords, f) =
    match split (readline f).1 with
    | [t0; t1; t2; t3] =>
        if decide (3 <= length rc)%nat then
          do n <- of_option ValueError (int_of_str t0) ;
          do x <- of_option ValueError (float_of_str t1) ;
          do y <- of_option ValueError (float_of_str t2) ;
          do z <- of_option ValueError (float_of_str t3) ;
          Ok (<[i := <[0%nat := VInt n]> rn]> nums,
              <[i := <[2%nat := VFloat z]>
                       (<[1%nat := VFloat y]> (<[0%nat := VFloat x]> rc))]> coords,
              (readline f).2)
        else Raise IndexError
    | _ => Raise ValueError
    end.
Proof.
  intros Hn Hrn Hc. unfold read_node_line.
  destruct (readline f) as [line f']. cbn [fst snd].
  destruct (split line) as [|t0 [|t1 [|t2 [|t3 [|]]]]]; try done.
  rewrite (store2_Ok nums i 0 _ rn) by done. cbn [rbind].
  destruct rn as [|a rn]; [cbn in Hrn; lia|].
  destruct rc as [|c0 [|c1 [|c2 rc]]].
  - rewrite (store2_short coords i 0 _ []) by (done || cbn; lia). done.
  - rewrite (store2_Ok coords i 0 _ [c0]) by (done || cbn; lia). cbn [rbind].
    rewrite (store2_insert_short coords i 1 _ _ [c0]) by (done || cbn; lia). done.
  - rewrite (store2_Ok coords i 0 _ [c0; c1]) by (done || cbn; lia). cbn [rbind].
    rewrite (store2_insert coords i 1 _ _ [c0; c1]) by (done || cbn; lia). cbn [rbind].
    rewrite (store2_insert_short coords i 2 _ _ [c0; c1]) by (done || cbn; lia). done.
  - rewrite (store2_Ok coords i 0 _ _ Hc) by (cbn; lia). cbn [rbind].
    rewrite (store2_insert coords i 1 _ _ _ Hc) by (cbn; lia). cbn [rbind].
    rewrite (store2_insert coords i 2 _ _ _ Hc) by (cbn; lia). cbn [rbind].
    rewrite (load2_insert nums i 0 _ _ (VStr t0) Hn) by done. cbn [rbind py_int].
    case_decide; [|cbn in *; lia].
    destruct (int_of_str t0) as [n|]; [|done]. cbn [rbind of_option].
    rewrite (store2_insert nums i 0 _ _ _ Hn) by (cbn; lia). cbn [rbind].
    rewrite (load2_insert coords i 0 _ _ (VStr t1) Hc) by done. cbn [rbind py_float].
    destruct (float_of_str t1) as [x|]; [|done]. cbn [rbind of_option].
    rewrite (store2_insert coords i 0 _ _ _ Hc) by (cbn; lia). cbn [rbind].
    rewrite (load2_insert coords i 1 _ _ (VStr t2) Hc) by done. cbn [rbind py_float].
    destruct (float_of_str t2) as [y|]; [|done]. cbn [rbind of_option].
    rewrite (store2_insert coords i 1 _ _ _ Hc) by (cbn; lia). cbn [rbind].
    rewrite (load2_insert coords i 2 _ _ (VStr t3) Hc) by done. cbn [rbind py_float].
    destruct (float_of_str t3) as [z|]; [|done]. cbn [rbind of_option].
    rewrite (store2_insert coords i 2 _ _ _ Hc) by (cbn; lia). cbn [rbind].
    done.
Qed.

Lemma read_elem_line_spec i (index map : table) f ri rm :
  index !! i = Some ri -> (0 < length ri)%nat -> map !! i = Some rm ->
  read_elem_line i (index, map, f) =
    match split (readline f).1 with
    | [t0; t1; t2; t3; t4] =>
        if decide (4 <= length rm)%nat then
          Ok (<[i := <[0%nat := VStr t0]> ri]> index,
              <[i := <[3%nat := VStr t4]>
                       (<[2%nat := VStr t3]>
                          (<[1%nat := VStr t2]> (<[0%nat := VStr t1]> rm)))]> map,
              (readline f).2)
        else Raise IndexError
    | _ => Raise ValueError
    end.
Proof.
  intros Hn Hrn Hc. unfold read_elem_line.
  destruct (readline f) as [line f']. cbn [fst snd].
  destruct (split line) as [|t0 [|t1 [|t2 [|t3 [|t4 [|]]]]]]; try done.
  rewrite (store2_Ok index i 0 _ ri) by done. cbn [rbind].
  destruct rm as [|c0 [|c1 [|c2 [|c3 rm]]]].
  - rewrite (store2_short map i 0 _ []) by (done || cbn; lia). done.
  - rewrite (store2_Ok map i 0 _ _ Hc) by (cbn; lia). cbn [rbind].
    rewrite (store2_insert_short map i 1 _ _ _ Hc) by (cbn; lia). done.
  - rewrite (store2_Ok map i 0 _ _ Hc) by (cbn; lia). cbn [rbind].
    rewrite (store2_insert map i 1 _ _ _ Hc) by (cbn; lia). cbn [rbind].
    rewrite (store2_insert_short map i 2 _ _ _ Hc) by (cbn; lia). done.
  - rewrite (store2_Ok map i 0 _ _ Hc) by (cbn; lia). cbn [rbind].
    rewrite (store2_insert map i 1 _ _ _ Hc) by (cbn; lia). cbn [rbind].
    rewrite (store2_insert map i 2 _ _ _ Hc) by (cbn; lia). cbn [rbind].
    rewrite (store2_insert_short map i 3 _ _ _ Hc) by (cbn; lia). done.
  - rewrite (store2_Ok map i 0 _ _ Hc) by (cbn; lia). cbn [rbind].
    rewrite (store2_insert map i 1 _ _ _ Hc) by (cbn; lia). cbn [rbind].
    rewrite (store2_insert map i 2 _ _ _ Hc) by (cbn; lia). cbn [rbind].
    rewrite (store2_insert map i 3 _ _ _ Hc) by (cbn; lia). cbn [rbind].
    case_decide; [done|cbn in *; lia].
Qed.

Lemma node_loop_init f0 n d :
  node_loop_inv f0 (Z.to_nat n) (Z.to_nat d) 0 (zeros n 2, zeros n d, f0).
Proof.
  unfold node_loop_inv, zeros. rewrite !length_replicate.
  repeat split; try done.
  - apply lookup_replicate_2. lia.
  - apply lookup_replicate_2. lia.
  - lia.
Qed.

Lemma node_loop_step f0 n d k st st' :
  (k < n)%nat -> node_loop_inv f0 n d k st ->
  read_node_line k st = Ok st' -> node_loop_inv f0 n d (S k) st'.
Proof.
  destruct st as [[nums coords] f]. intros Hk (Hf & Hln & Hlc & Hz & Hd) Hrun.
  destruct (Hz k) as [Hnk Hck]; [lia|].
  rewrite (read_node_line_spec _ _ _ _ _ _ Hnk ltac:(cbn; lia) Hck) in Hrun.
  destruct (split (readline f).1) as [|t0 [|t1 [|t2 [|t3 [|]]]]] eqn:Hsp;
    try done.
  case_decide as Hd3; [|done]. rewrite length_replicate in Hd3.
  destruct (int_of_str t0) as [id|] eqn:Hid; [|done].
  destruct (float_of_str t1) as [x|] eqn:Hx; [|done].
  destruct (float_of_str t2) as [y|] eqn:Hy; [|done].
  destruct (float_of_str t3) as [z|] eqn:Hz'; [|done].
  cbn in Hrun. inversion Hrun; subst st'; clear Hrun.
  assert (Hrow : <[2%nat:=VFloat z]> (<[1%nat:=VFloat y]> (<[0%nat:=VFloat x]>
                   (replicate d (VInt 0))))
                 = VFloat x :: VFloat y :: VFloat z :: replicate (d - 3) (VInt 0)).
  { destruct d as [|[|[|d]]]; [lia..|]. cbn. by rewrite Nat.sub_0_r. }
  rewrite Hrow. cbn [node_loop_inv].
  rewrite !length_insert. repeat split; try done.
  - by rewrite Hf.
  - rewrite list_lookup_insert_ne by lia. apply Hz. lia.
  - rewrite list_lookup_insert_ne by lia. apply Hz. lia.
  - intros j Hj. destruct (decide (j = k)) as [->|Hne].
    + exists t0, t1, t2, t3, id, x, y, z.
      rewrite !list_lookup_insert_eq by lia.
      unfold nth_line. rewrite <- Hf, Hsp. done.
    + destruct (Hd j) as (u0 & u1 & u2 & u3 & id' & x' & y' & z' & ?); [lia|].
      exists u0, u1, u2, u3, id', x', y', z'.
      rewrite !list_lookup_insert_ne by lia. done.
Qed.
End Readers.

(** ** The two readers, in full *)

Section ReaderResults.
Context `{PyFloat}.
Import PyStr.

Lemma elem_loop_init f0 n w :
  elem_loop_inv f0 (Z.to_nat n) (Z.to_nat w) 0 (zeros n 1, zeros n w, f0).
Proof.
  unfold elem_loop_inv, zeros. rewrite !length_replicate.
  repeat split; try done.
  - apply lookup_replicate_2. lia.
  - apply lookup_replicate_2. lia.
  - lia.
Qed.

Lemma elem_loop_step f0 n w k st st' :
  (k < n)%nat -> elem_loop_inv f0 n w k st ->
  read_elem_line k st = Ok st' -> elem_loop_inv f0 n w (S k) st'.
Proof.
  destruct st as [[index map] f]. intros Hk (Hf & Hln & Hlc & Hz & Hd) Hrun.
  destruct (Hz k) as [Hnk Hck]; [lia|].
  rewrite (read_elem_line_spec _ _ _ _ _ _ Hnk ltac:(cbn; lia) Hck) in Hrun.
  destruct (split (readline f).1) as [|t0 [|t1 [|t2 [|t3 [|t4 [|]]]]]] eqn:Hsp;
    try done.
  case_decide as Hw; [|done]. rewrite length_replicate in Hw.
  inversion Hrun; subst st'; clear Hrun.
  assert (Hrow : <[3%nat:=VStr t4]> (<[2%nat:=VStr t3]> (<[1%nat:=VStr t2]>
                   (<[0%nat:=VStr t1]> (replicate w (VInt 0)))))
                 = VStr t1 :: VStr t2 :: VStr t3 :: VStr t4
                   :: replicate (w - 4) (VInt 0)).
  { destruct w as [|[|[|[|w]]]]; [lia..|]. cbn. by rewrite Nat.sub_0_r. }
  rewrite Hrow. cbn [elem_loop_inv].
  rewrite !length_insert. repeat split; try done.
  - by rewrite Hf.
  - rewrite list_lookup_insert_ne by lia. apply Hz. lia.
  - rewrite list_lookup_insert_ne by lia. apply Hz. lia.
  - intros j Hj. destruct (decide (j = k)) as [->|Hne].
    + exists t0, t1, t2, t3, t4.
      rewrite !list_lookup_insert_eq by lia.
      unfold nth_line. rewrite <- Hf, Hsp. done.
    + destruct (Hd j) as (u0 & u1 & u2 & u3 & u4 & ?); [lia|].
      exists u0, u1, u2, u3, u4.
      rewrite !list_lookup_insert_ne by lia. done.
Qed.

(** What a turn of the node loop can raise. *)
Lemma node_loop_raise f0 n d k st e :
  (k < n)%nat -> node_loop_inv f0 n d k st ->
  read_node_line k st = Raise e ->
  (e = ValueError \/ e = IndexError) /\ ((3 <= d)%nat -> e = ValueError).
Proof.
  destruct st as [[nums coords] f]. intros Hk (Hf & Hln & Hlc & Hz & Hd) Hrun.
  destruct (Hz k) as [Hnk Hck]; [lia|].
  rewrite (read_node_line_spec _ _ _ _ _ _ Hnk ltac:(cbn; lia) Hck) in Hrun.
  destruct (split (readline f).1) as [|t0 [|t1 [|t2 [|t3 [|]]]]];
    try (inversion Hrun; subst; by auto).
  case_decide as Hd3.
  - destruct (int_of_str t0); [|inversion Hrun; by auto].
    destruct (float_of_str t1); [|inversion Hrun; by auto].
    destruct (float_of_str t2); [|inversion Hrun; by auto].
    destruct (float_of_str t3); [|inversion Hrun; by auto].
    done.
  - rewrite length_replicate in Hd3. inversion Hrun; subst.
    split; [by auto|]. lia.
Qed.

Lemma elem_loop_raise f0 n w k st e :
  (k < n)%nat -> elem_loop_inv f0 n w k st ->
  read_elem_line k st = Raise e ->
  (e = ValueError \/ e = IndexError) /\ ((4 <= w)%nat -> e = ValueError).
Proof.
  destruct st as [[index map] f]. intros Hk (Hf & Hln & Hlc & Hz & Hd) Hrun.
  destruct (Hz k) as [Hnk Hck]; [lia|].
  rewrite (read_elem_line_spec _ _ _ _ _ _ Hnk ltac:(cbn; lia) Hck) in Hrun.
  destruct (split (readline f).1) as [|t0 [|t1 [|t2 [|t3 [|t4 [|]]]]]];
    try (inversion Hrun; subst; by auto).
  case_decide as Hw.
  - done.
  - rewrite length_replicate in Hw. inversion Hrun; subst.
    split; [by auto|]. lia.
Qed.

Lemma read_node_header_inv f n d a b rest :
  read_node_header f = Ok (n, d, a, b, rest) -> rest = (readline f).2.
Proof.
  unfold read_node_header. destruct (readline f) as [line r].
  destruct (split line) as [|t0 [|t1 [|t2 [|t3 [|]]]]]; try done.
  destruct (int_of_str t0); [|done]. destruct (int_of_str t1); [|done].
  destruct (int_of_str t2); [|done]. destruct (int_of_str t3); [|done].
  cbn. by inversion 1.
Qed.

Lemma read_node_header_raise f e :
  read_node_header f = Raise e -> e = ValueError.
Proof.
  unfold read_node_header. destruct (readline f) as [line r].
  destruct (split line) as [|t0 [|t1 [|t2 [|t3 [|]]]]]; try by inversion 1.
  destruct (int_of_str t0); [|by inversion 1].
  destruct (int_of_str t1); [|by inversion 1].
  destruct (int_of_str t2); [|by inversion 1].
  destruct (int_of_str t3); by inversion 1.
Qed.

Lemma read_elem_header_inv f n k a rest :
  read_elem_header f = Ok (n, k, a, rest) -> rest = (readline f).2.
Proof.
  unfold read_elem_header. destruct (readline f) as [line r].
  destruct (split line) as [|t0 [|t1 [|t2 [|]]]]; try done.
  destruct (int_of_str t0); [|done]. destruct (int_of_str t1); [|done].
  destruct (int_of_str t2); [|done].
  cbn. by inversion 1.
Qed.

Lemma read_elem_header_raise f e :
  read_elem_header f = Raise e -> e = ValueError.
Proof.
  unfold read_elem_header. destruct (readline f) as [line r].
  destruct (split line) as [|t0 [|t1 [|t2 [|]]]]; try by inversion 1.
  destruct (int_of_str t0); [|by inversion 1].
  destruct (int_of_str t1); [|by inversion 1].
  destruct (int_of_str t2); by inversion 1.
Qed.

(** The node file read in full: every row is filled from its line. *)
Lemma read_node_file_Ok f nd :
  read_node_file f = Ok nd ->
  exists a b,
    read_node_header f
      = Ok (num_nodes nd, num_coords nd, a, b, (readline f).2) /\
    length (NodeNums nd) = Z.to_nat (num_nodes nd) /\
    length (NodeCoords nd) = Z.to_nat (num_nodes nd) /\
    forall j, (j < Z.to_nat (num_nodes nd))%nat ->
      node_row_done (readline f).2 (Z.to_nat (num_coords nd))
        (NodeNums nd) (NodeCoords nd) j.
Proof.
  unfold read_node_file. intros Hrun.
  destruct (read_node_header f) as [[[[[n d] a] b] rest]|] eqn:Hh; [|done].
  cbn [rbind] in Hrun.
  destruct (for_range _ _ _ _) as [[[nums coords] f']|] eqn:Hloop; [|done].
  cbn in Hrun. inversion Hrun; subst nd; clear Hrun. cbn.
  pose proof (read_node_header_inv _ _ _ _ _ _ Hh) as ->.
  apply (for_range_inv
           (node_loop_inv (readline f).2 (Z.to_nat n) (Z.to_nat d))) in Hloop.
  - destruct Hloop as (_ & Hln & Hlc & _ & Hd). eauto 10.
  - apply node_loop_init.
  - intros k t t' Hk. apply node_loop_step. lia.
Qed.

Lemma read_node_file_raise f e :
  read_node_file f = Raise e -> e = ValueError \/ e = IndexError.
Proof.
  unfold read_node_file. intros Hrun.
  destruct (read_node_header f) as [[[[[n d] a] b] rest]|] eqn:Hh.
  - cbn [rbind] in Hrun.
    destruct (for_range _ _ _ _) as [[[nums coords] f']|e'] eqn:Hloop; [done|].
    cbn in Hrun. inversion Hrun; subst e'.
    eapply (for_range_raise (node_loop_inv rest (Z.to_nat n) (Z.to_nat d))
              (fun e => e = ValueError \/ e = IndexError)); [| | |exact Hloop].
    + apply node_loop_init.
    + intros k t t' Hk. apply node_loop_step. lia.
    + intros k t e' Hk Hinv Hr.
      assert (k < Z.to_nat n)%nat as Hk' by lia.
      by destruct (node_loop_raise _ _ _ _ _ _ Hk' Hinv Hr).
  - cbn in Hrun. inversion Hrun; subst. left.
    by apply (read_node_header_raise f).
Qed.

Lemma read_elem_file_Ok f ed :
  read_elem_file f = Ok ed ->
  read_elem_header f
    = Ok (num_elements ed, nodes_per_ele ed, ele_attributes ed,
          (readline f).2) /\
  length (Elemindex ed) = Z.to_nat (num_elements ed) /\
  length (ElemMap ed) = Z.to_nat (num_elements ed) /\
  forall j, (j < Z.to_nat (num_elements ed))%nat ->
    elem_row_done (readline f).2
      (Z.to_nat (nodes_per_ele ed + ele_attributes ed))
      (Elemindex ed) (ElemMap ed) j.
Proof.
  unfold read_elem_file. intros Hrun.
  destruct (read_elem_header f) as [[[[n k] a] rest]|] eqn:Hh; [|done].
  cbn [rbind] in Hrun.
  destruct (for_range _ _ _ _) as [[[index map] f']|] eqn:Hloop; [|done].
  cbn in Hrun. inversion Hrun; subst ed; clear Hrun. cbn.
  pose proof (read_elem_header_inv _ _ _ _ _ Hh) as ->.
  apply (for_range_inv
           (elem_loop_inv (readline f).2 (Z.to_nat n) (Z.to_nat (k + a))))
    in Hloop.
  - destruct Hloop as (_ & Hln & Hlc & _ & Hd). eauto 10.
  - apply elem_loop_init.
  - intros j t t' Hj. apply elem_loop_step. lia.
Qed.

Lemma read_elem_file_raise f e :
  read_elem_file f = Raise e -> e = ValueError \/ e = IndexError.
Proof.
  unfold read_elem_file. intros Hrun.
  destruct (read_elem_header f) as [[[[n k] a] rest]|] eqn:Hh.
  - cbn [rbind] in Hrun.
    destruct (for_range _ _ _ _) as [[[index map] f']|e'] eqn:Hloop; [done|].
    cbn in Hrun. inversion Hrun; subst e'.
    eapply (for_range_raise
              (elem_loop_inv rest (Z.to_nat n) (Z.to_nat (k + a)))
              (fun e => e = ValueError \/ e = IndexError)); [| | |exact Hloop].
    + apply elem_loop_init.
    + intros j t t' Hj. apply elem_loop_step. lia.
    + intros j t e' Hj Hinv Hr.
      assert (j < Z.to_nat n)%nat as Hj' by lia.
      by destruct (elem_loop_raise _ _ _ _ _ _ Hj' Hinv Hr).
  - cbn in Hrun. inversion Hrun; subst. left.
    by apply (read_elem_header_raise f).
Qed.

End ReaderResults.

(** ** Reading an exported file back *)

Section ExportedText.
Context `{PyFloat}.
Import PyStr PyStrFacts.

Lemma list_file_bracket (row : list pyval) (t : table) :
  exists rest, list_file (row :: t) = String "[" rest.
Proof. unfold list_file, str_list. cbn. eauto. Qed.

Lemma read_node_header_bracket f :
  read_node_header (String "[" f) = Raise ValueError.
Proof.
  unfold read_node_header. rewrite readline_cons by done.
  destruct (split_head "[" (readline f).1) as (t & ts & ->); [done|].
  destruct ts as [|t1 [|t2 [|t3 [|]]]]; try done.
Qed.

Lemma read_elem_header_bracket f :
  read_elem_header (String "[" f) = Raise ValueError.
Proof.
  unfold read_elem_header. rewrite readline_cons by done.
  destruct (split_head "[" (readline f).1) as (t & ts & ->); [done|].
  destruct ts as [|t1 [|t2 [|]]]; try done.
Qed.

Lemma read_list_file (t : table) :
  read_node_file (list_file t) = Raise ValueError /\
  read_elem_file (list_file t) = Raise ValueError.
Proof.
  destruct t as [|row t]; [done|].
  destruct (list_file_bracket row t) as [rest ->].
  unfold read_node_file, read_elem_file.
  by rewrite read_node_header_bracket, read_elem_header_bracket.
Qed.

End ExportedText.


(** ** The node reader and its input *)

Section ReaderClaims.
Context `{PyFloat}.
Import PyStr PyStrFacts.

Lemma read_node_file_raise_dim f e n d a b rest :
  read_node_header f = Ok (n, d, a, b, rest) -> 3 <= d ->
  read_node_file f = Raise e -> e = ValueError.
Proof.
  unfold read_node_file. intros Hh Hd Hrun. rewrite Hh in Hrun.
  cbn [rbind] in Hrun.
  destruct (for_range _ _ _ _) as [[[nums coords] f']|e'] eqn:Hloop; [done|].
  cbn in Hrun. inversion Hrun; subst e'.
  eapply (for_range_raise (node_loop_inv rest (Z.to_nat n) (Z.to_nat d))
            (fun e => e = ValueError)); [| | |exact Hloop].
  - apply node_loop_init.
  - intros k t t' Hk. apply node_loop_step. lia.
  - intros k t e' Hk Hinv Hr.
    assert (k < Z.to_nat n)%nat as Hk' by lia.
    destruct (node_loop_raise _ _ _ _ _ _ Hk' Hinv Hr) as [_ Hve].
    apply Hve. lia.
Qed.

(** C1 (amended).  The exported files are not in the format the reader
    takes: no header line is written and each record is written as the
    text of a Python list.  Reading an exported node file or an exported
    element file back raises [ValueError], whatever the lists hold. *)
Theorem exported_files_not_readable
    (nodes_list : table) (elements_list : list (list Z)) :
  read_node_file (node_file_out nodes_list) = Raise ValueError /\
  read_elem_file (elem_file_out elements_list) = Raise ValueError.
Proof.
  unfold node_file_out, elem_file_out. split; apply read_list_file.
Qed.

(** C2 (amended).  A node file whose header declares [n] nodes and which
    supplies fewer than [n] lines after the header is never read with
    success: reading raises Python's [ValueError] or [IndexError], and it
    is [ValueError] whenever the declared dimension is at least 3. *)
Theorem truncated_node_file_raises f n d a b rest :
  read_node_header f = Ok (n, d, a, b, rest) ->
  (line_count rest < Z.to_nat n)%nat ->
  exists e, read_node_file f = Raise e /\
            (e = ValueError \/ e = IndexError) /\
            (3 <= d -> e = ValueError).
Proof.
  intros Hh Hlines. destruct (read_node_file f) as [nd|e] eqn:Hrun.
  - exfalso. destruct (read_node_file_Ok f nd Hrun) as (a' & b' & Hh' & _ & _ & Hrows).
    rewrite Hh in Hh'. inversion Hh'; subst.
    destruct (Hrows (line_count (readline f).2)) as (t0 & t1 & t2 & t3 & ? & ? & ? & ? & Hsp & _);
      [done|].
    by rewrite nth_line_eof in Hsp.
  - exists e. split; [done|]. split.
    + by apply (read_node_file_raise f).
    + intros Hd. by apply (read_node_file_raise_dim f e n d a b rest).
Qed.

(** C3 (amended).  Whatever attribute count and boundary-marker flag the
    header declares, each declared node line must hold exactly four
    tokens: when one of them holds another number of tokens, reading
    raises Python's [ValueError] or [IndexError]. *)
Theorem node_line_token_count_is_four f n d a b rest k :
  read_node_header f = Ok (n, d, a, b, rest) ->
  (k < Z.to_nat n)%nat ->
  length (split (nth_line (S k) f)) <> 4%nat ->
  exists e, read_node_file f = Raise e /\
            (e = ValueError \/ e = IndexError).
Proof.
  intros Hh Hk Hlen. destruct (read_node_file f) as [nd|e] eqn:Hrun.
  - exfalso.
    destruct (read_node_file_Ok f nd Hrun) as (a' & b' & Hh' & _ & _ & Hrows).
    rewrite Hh in Hh'. inversion Hh'; subst.
    destruct (Hrows k Hk) as (t0 & t1 & t2 & t3 & ? & ? & ? & ? & Hsp & _).
    apply Hlen. by rewrite nth_line_S, Hsp.
  - exists e. split; [done|]. by apply (read_node_file_raise f).
Qed.

(** C10 (amended).  The node reader succeeds only on files whose declared
    node lines hold exactly four tokens.  A node file whose header
    declares dimension 2 and at least one node is never read with
    success: reading raises [IndexError] when the first node line holds
    exactly four tokens, and [ValueError] when it holds any other number
    of tokens. *)
Theorem plane_node_file_raises f n d a b rest :
  read_node_header f = Ok (n, d, a, b, rest) ->
  0 < n ->
  (forall nd k, read_node_file f = Ok nd -> (k < Z.to_nat n)%nat ->
     length (split (nth_line (S k) f)) = 4%nat) /\
  (d = 2 ->
   read_node_file f
     = Raise (if decide (length (split (nth_line 1 f)) = 4%nat)
              then IndexError else ValueError)).
Proof.
  intros Hh Hn. split.
  - intros nd k Hrun Hk.
    destruct (read_node_file_Ok f nd Hrun) as (a' & b' & Hh' & _ & _ & Hrows).
    rewrite Hh in Hh'. inversion Hh'; subst.
    destruct (Hrows k Hk) as (t0 & t1 & t2 & t3 & ? & ? & ? & ? & Hsp & _).
    by rewrite nth_line_S, Hsp.
  - intros ->. unfold read_node_file. rewrite Hh. cbn [rbind].
    pose proof (read_node_header_inv _ _ _ _ _ _ Hh) as ->.
    rewrite nth_line_S, nth_line_0.
    destruct (Z.to_nat n) as [|c] eqn:Hc; [lia|]. cbn [for_range].
    rewrite (read_node_line_spec 0 _ _ _ [VInt 0; VInt 0] [VInt 0; VInt 0]).
    + destruct (split _) as [|t0 [|t1 [|t2 [|t3 [|]]]]]; try done.
    + unfold zeros. rewrite Hc. done.
    + cbn. lia.
    + unfold zeros. rewrite Hc. done.
Qed.

End ReaderClaims.


(** ** The exported lists *)

Section Exports.
Context `{PyFloat}.

(** A loop that fills the cells [0 .. n-1] of a list of length [n]. *)
Lemma fill_loop {A} (g : nat -> result A) (v : nat -> A) n (init : list A) :
  length init = n ->
  (forall j, (j < n)%nat -> g j = Ok (v j)) ->
  for_range n 0 (fun j t => do row <- g j ; store1 t j row) init
    = Ok (v <$> seq 0 n).
Proof.
  intros Hlen Hg.
  destruct (for_range_ok
              (fun k (t : list A) =>
                 length t = n /\ forall j, (j < k)%nat -> t !! j = Some (v j))
              (fun j t => do row <- g j ; store1 t j row) n 0 init)
    as (t & Hrun & Hlt & Hcells).
  - split; [done|]. intros j Hj. lia.
  - intros k t Hk [Hl Hc]. rewrite Hg by lia. cbn [rbind]. unfold store1.
    case_decide; [|lia]. eexists. split; [done|].
    rewrite length_insert. split; [done|]. intros j Hj.
    destruct (decide (j = k)) as [->|Hne].
    + by rewrite list_lookup_insert_eq by lia.
    + rewrite list_lookup_insert_ne by lia. apply Hc. lia.
  - rewrite Hrun. f_equal. apply list_eq. intros j.
    destruct (decide (j < n)%nat) as [Hj|Hj].
    + rewrite Hcells by lia. rewrite list_lookup_fmap, lookup_seq_lt by lia.
      done.
    + rewrite !lookup_ge_None_2; [done|..].
      * rewrite length_fmap, length_seq. lia.
      * lia.
Qed.

Lemma build_nodes_list_spec s :
  build_nodes_list s
    = Ok (node_record s <$> seq 0 (Z.to_nat (NumberOfNodesGet s))).
Proof.
  unfold build_nodes_list.
  apply (fill_loop (fun i => Ok (node_record s i))); [|done].
  unfold zeros. by rewrite length_replicate.
Qed.

Lemma element_record_spec s j nodes :
  NodesGet (meshElements s) (Z.of_nat j + 1) = Ok nodes ->
  length nodes = 4%nat ->
  element_record s j = Ok ((Z.of_nat j + 1) :: nodes).
Proof.
  intros Hget Hlen. unfold element_record. rewrite Hget. cbn [rbind].
  destruct nodes as [|n0 [|n1 [|n2 [|n3 [|]]]]]; done.
Qed.

Lemma solution_field_nodes_spec s :
  0 <= NumberOfNodesGet s ->
  solution_field_nodes s
    = Ok ((fun i => ParameterSetGetNodeDP (solution_field s)
                      (Z.of_nat i + 1) 1)
          <$> seq 0 (Z.to_nat (NumberOfNodesGet s))).
Proof.
  intros Hn. unfold solution_field_nodes, np_zeros.
  destruct (Z.ltb_spec (NumberOfNodesGet s) 0) as [?|_]; [lia|].
  cbn [rbind].
  apply (fill_loop
           (fun i => Ok (ParameterSetGetNodeDP (solution_field s)
                           (Z.of_nat i + 1) 1))); [|done].
  by rewrite length_replicate.
Qed.

Lemma solution_field_nodes_negative s :
  NumberOfNodesGet s < 0 -> solution_field_nodes s = Raise ValueError.
Proof.
  intros Hn. unfold solution_field_nodes, np_zeros.
  by destruct (Z.ltb_spec (NumberOfNodesGet s) 0) as [_|?]; [|lia].
Qed.

Lemma solution_field_nodes_Ok s sol :
  solution_field_nodes s = Ok sol -> 0 <= NumberOfNodesGet s.
Proof.
  intros Hsol. destruct (Z.lt_ge_cases (NumberOfNodesGet s) 0) as [Hn|]; [|done].
  by rewrite (solution_field_nodes_negative s Hn) in Hsol.
Qed.

Lemma append_assoc (a b c : string) : (a ++ b) ++ c = a ++ (b ++ c).
Proof.
  induction a as [|x a IH]; [done|].
  change (String x ((a ++ b) ++ c) = String x (a ++ (b ++ c))).
  by rewrite IH.
Qed.

Lemma str_list_5 (a b c d e : pyval) :
  str_list [a; b; c; d; e]
    = "[" ++ py_repr a ++ ", " ++ py_repr b ++ ", " ++ py_repr c ++ ", "
      ++ py_repr d ++ ", " ++ py_repr e ++ "]".
Proof.
  unfold str_list. cbn [fmap list_fmap join]. by rewrite !append_assoc.
Qed.

(** C7.  The node export builds exactly one record per node, in
    increasing node number 1, 2, ..., each holding the node number, its
    three coordinates and its solution value, in that order; the element
    export builds one record per element, in increasing element number,
    holding the element number and its four node numbers (here for a mesh
    whose elements 1, 2, ... each have their four nodes set).  Each
    record is written on a line of its own, as Python prints a list. *)
Theorem export_builds_one_record_each (s : session) (n0 n1 n2 n3 : nat -> Z) :
  (forall j, (j < Z.to_nat (NumberOfElementsGet s))%nat ->
     NodesGet (meshElements s) (Z.of_nat j + 1)
       = Ok [n0 j; n1 j; n2 j; n3 j]) ->
  exists nodes_list elements_list,
    build_nodes_list s = Ok nodes_list /\
    build_elements_list s = Ok elements_list /\
    nodes_list
      = (fun i =>
           let node := Z.of_nat i + 1 in
           [VInt node;
            VFloat (ParameterSetGetNodeDP (geometric_field s) node 1);
            VFloat (ParameterSetGetNodeDP (geometric_field s) node 2);
            VFloat (ParameterSetGetNodeDP (geometric_field s) node 3);
            VFloat (ParameterSetGetNodeDP (solution_field s) node 1)])
        <$> seq 0 (Z.to_nat (NumberOfNodesGet s)) /\
    elements_list
      = (fun j => [Z.of_nat j + 1; n0 j; n1 j; n2 j; n3 j])
        <$> seq 0 (Z.to_nat (NumberOfElementsGet s)) /\
    node_file_out nodes_list
      = writelines
          ((fun i =>
              let node := Z.of_nat i + 1 in
              "[" ++ PyStr.str_of_int node ++ ", "
              ++ float_str (ParameterSetGetNodeDP (geometric_field s) node 1)
              ++ ", "
              ++ float_str (ParameterSetGetNodeDP (geometric_field s) node 2)
              ++ ", "
              ++ float_str (ParameterSetGetNodeDP (geometric_field s) node 3)
              ++ ", "
              ++ float_str (ParameterSetGetNodeDP (solution_field s) node 1)
              ++ "]" ++ String PyStr.newline "")
           <$> seq 0 (Z.to_nat (NumberOfNodesGet s))) /\
    elem_file_out elements_list
      = writelines
          ((fun j =>
              "[" ++ PyStr.str_of_int (Z.of_nat j + 1) ++ ", "
              ++ PyStr.str_of_int (n0 j) ++ ", "
              ++ PyStr.str_of_int (n1 j) ++ ", "
              ++ PyStr.str_of_int (n2 j) ++ ", "
              ++ PyStr.str_of_int (n3 j) ++ "]" ++ String PyStr.newline "")
           <$> seq 0 (Z.to_nat (NumberOfElementsGet s))).
Proof.
  intros Hel. eexists _, _.
  split; [apply build_nodes_list_spec|].
  split.
  { unfold build_elements_list.
    apply (fill_loop _ (fun j => [Z.of_nat j + 1; n0 j; n1 j; n2 j; n3 j])).
    - by rewrite length_replicate.
    - intros j Hj. by apply element_record_spec; [apply Hel|]. }
  split; [done|]. split; [done|].
  unfold node_file_out, elem_file_out, list_file.
  rewrite <- !list_fmap_compose.
  split; f_equal; apply list_fmap_ext; intros i k _;
    cbn [compose fmap list_fmap]; unfold node_record; rewrite str_list_5;
    cbn [py_repr]; by rewrite !append_assoc.
Qed.

(** C9.  On a mesh of at least five nodes, the array saved under the name
    of the x coordinates is the whole record of node 2 (number, x, y, z,
    solution, as doubles), and the arrays saved under the names of the y
    coordinates, the z coordinates and the solution are the whole records
    of nodes 3, 4 and 5. *)
Theorem numpy_arrays_hold_whole_records (s : session) :
  5 <= NumberOfNodesGet s ->
  exists nodes_list,
    build_nodes_list s = Ok nodes_list /\
    numpy_export nodes_list
      = Ok [("CARDIOMYOCYTE_OUTPUT.x.npy", node_record_doubles s 1);
            ("CARDIOMYOCYTE_OUTPUT.y.npy", node_record_doubles s 2);
            ("CARDIOMYOCYTE_OUTPUT.z.npy", node_record_doubles s 3);
            ("CARDIOMYOCYTE_OUTPUT.sol.npy", node_record_doubles s 4)].
Proof.
  intros Hn. eexists. split; [apply build_nodes_list_spec|].
  unfold numpy_export, index.
  rewrite !list_lookup_fmap, !lookup_seq_lt by lia. done.
Qed.

End Exports.

(** ** Loading a mesh *)

Section Loading.
Context `{PyFloat}.
Import PyStr PyStrFacts.

Lemma load_Ok nf ef s :
  load nf ef = Ok s ->
  read_node_file nf = Ok (node_input s) /\
  read_elem_file ef = Ok (elem_input s) /\
  define_elements (elem_input s) = Ok (meshElements s) /\
  set_geometry (node_input s) = Ok (geometric_field s) /\
  solution_field s = ComponentValuesInitialiseDP (float_of_int 1000) new_field.
Proof.
  unfold load. intros Hrun.
  destruct (read_node_file nf) as [nd|] eqn:Hnd; [|done].
  destruct (read_elem_file ef) as [ed|] eqn:Hed; [|done].
  cbn [rbind] in Hrun.
  destruct (define_elements ed) as [me|] eqn:Hme; [|done].
  destruct (set_geometry nd) as [geo|] eqn:Hgeo; [|done].
  cbn in Hrun. by inversion Hrun.
Qed.

Lemma define_element_spec ed j me t0 t1 t2 t3 t4 tail :
  Elemindex ed !! j = Some [VStr t0] ->
  ElemMap ed !! j = Some (VStr t1 :: VStr t2 :: VStr t3 :: VStr t4 :: tail) ->
  define_element ed j me =
    do n1 <- of_option ValueError (int_of_str t1) ;
    do n2 <- of_option ValueError (int_of_str t2) ;
    do n3 <- of_option ValueError (int_of_str t3) ;
    do n4 <- of_option ValueError (int_of_str t4) ;
    do e <- of_option ValueError (int_of_str t0) ;
    Ok (NodesSet me e [n1; n2; n3; n4]).
Proof.
  intros Hi Hm. unfold define_element.
  rewrite (load2_Ok _ j 0 _ (VStr t0) Hi) by done.
  rewrite (load2_Ok _ j 0 _ (VStr t1) Hm) by done.
  rewrite (load2_Ok _ j 1 _ (VStr t2) Hm) by done.
  rewrite (load2_Ok _ j 2 _ (VStr t3) Hm) by done.
  rewrite (load2_Ok _ j 3 _ (VStr t4) Hm) by done.
  done.
Qed.

(** After the element file is read, the loop of cell 9 passes every line
    to [NodesSet] as it is written. *)
Lemma define_elements_Ok f ed me :
  read_elem_file f = Ok ed -> define_elements ed = Ok me ->
  length me = Z.to_nat (num_elements ed) /\
  forall j, (j < Z.to_nat (num_elements ed))%nat ->
    element_handed (readline f).2 me j.
Proof.
  intros Hread Hdef.
  destruct (read_elem_file_Ok f ed Hread) as (_ & _ & _ & Hrows).
  unfold define_elements in Hdef.
  apply (for_range_inv
           (fun k (me : mesh_elements) =>
              length me = k /\
              forall j, (j < k)%nat -> element_handed (readline f).2 me j))
    in Hdef; [done| |].
  - split; [done|]. intros j Hj. lia.
  - intros k t t' Hk [Hlen Hcalls] Hstep.
    destruct (Hrows k) as (t0 & t1 & t2 & t3 & t4 & Hsp & Hi & Hm & _); [lia|].
    rewrite (define_element_spec _ _ _ _ _ _ _ _ _ Hi Hm) in Hstep.
    destruct (int_of_str t1) as [n1|] eqn:H1; [|done].
    destruct (int_of_str t2) as [n2|] eqn:H2; [|done].
    destruct (int_of_str t3) as [n3|] eqn:H3; [|done].
    destruct (int_of_str t4) as [n4|] eqn:H4; [|done].
    destruct (int_of_str t0) as [e|] eqn:H0; [|done].
    cbn in Hstep. inversion Hstep; subst t'; clear Hstep. unfold NodesSet.
    split; [rewrite length_app; cbn; lia|].
    intros j Hj. destruct (decide (j = k)) as [->|Hne].
    + exists t0, t1, t2, t3, t4, e, n1, n2, n3, n4.
      rewrite lookup_app_r by lia. rewrite Hlen, Nat.sub_diag. done.
    + destruct (Hcalls j) as (u0 & u1 & u2 & u3 & u4 & e' & m1 & m2 & m3 & m4
                              & ? & ? & ? & ? & ? & ? & Hl); [lia|].
      exists u0, u1, u2, u3, u4, e', m1, m2, m3, m4.
      rewrite lookup_app_l by lia. done.
Qed.

Lemma set_node_geometry_spec nd j geo id b x y z tail :
  NodeNums nd !! j = Some [VInt id; b] ->
  NodeCoords nd !! j = Some (VFloat x :: VFloat y :: VFloat z :: tail) ->
  set_node_geometry nd j geo
    = Ok (ParameterSetUpdateNodeDP
            (ParameterSetUpdateNodeDP
               (ParameterSetUpdateNodeDP geo id 1 x) id 2 y) id 3 z).
Proof.
  intros Hn Hc. unfold set_node_geometry.
  rewrite (load2_Ok _ j 0 _ (VInt id) Hn) by done. cbn [rbind as_int].
  rewrite (load2_Ok _ j 0 _ (VFloat x) Hc) by done.
  rewrite (load2_Ok _ j 1 _ (VFloat y) Hc) by done.
  rewrite (load2_Ok _ j 2 _ (VFloat z) Hc) by done.
  done.
Qed.

(** The geometric field can be set from every node file that was read. *)
Lemma set_geometry_total f nd :
  read_node_file f = Ok nd -> exists geo, set_geometry nd = Ok geo.
Proof.
  intros Hread.
  destruct (read_node_file_Ok f nd Hread) as (a & b & _ & _ & _ & Hrows).
  unfold set_geometry.
  destruct (for_range_ok (fun _ (_ : field) => True)
              (set_node_geometry nd) (Z.to_nat (num_nodes nd)) 0 new_field)
    as (geo & Hrun & _); [done| |by eauto].
  intros k geo Hk _.
  destruct (Hrows k) as (t0 & t1 & t2 & t3 & id & x & y & z & _ & _ & _ & _ & _
                         & Hn & Hc & _); [lia|].
  rewrite (set_node_geometry_spec _ _ _ _ _ _ _ _ _ Hn Hc). eauto.
Qed.

Lemma get_update geo node c x node' c' :
  ParameterSetGetNodeDP (ParameterSetUpdateNodeDP geo node c x) node' c'
    = if decide ((node, c) = (node', c')) then x
      else ParameterSetGetNodeDP geo node' c'.
Proof.
  unfold ParameterSetGetNodeDP, ParameterSetUpdateNodeDP. cbn.
  rewrite lookup_insert. by case_decide.
Qed.

(** When the node file lists the nodes 1, 2, ... in this order, the
    geometric field holds the coordinates of row [i] at node [i + 1]. *)
Lemma set_geometry_in_order f nd geo :
  read_node_file f = Ok nd -> set_geometry nd = Ok geo ->
  (forall i, (i < Z.to_nat (num_nodes nd))%nat ->
     load2 (NodeNums nd) i 0 = Ok (VInt (Z.of_nat i + 1))) ->
  geometry_set (NodeCoords nd) (Z.to_nat (num_nodes nd)) geo.
Proof.
  intros Hread Hset Hord.
  destruct (read_node_file_Ok f nd Hread) as (a & b & _ & _ & _ & Hrows).
  unfold set_geometry in Hset.
  apply (for_range_inv (geometry_set (NodeCoords nd))) in Hset; [done| |].
  - intros j x y z tail Hj. lia.
  - intros k g g' Hk Hg Hstep.
    destruct (Hrows k) as (t0 & t1 & t2 & t3 & id & x & y & z & _ & _ & _ & _ & _
                           & Hn & Hc & _); [lia|].
    rewrite (set_node_geometry_spec _ _ _ _ _ _ _ _ _ Hn Hc) in Hstep.
    inversion Hstep; subst g'; clear Hstep.
    specialize (Hord k ltac:(lia)).
    rewrite (load2_Ok _ k 0 _ (VInt id) Hn) in Hord by done.
    inversion Hord; subst id; clear Hord.
    intros j x' y' z' tail Hj Hrow. rewrite !get_update.
    destruct (decide (j = k)) as [->|Hne].
    + rewrite Hc in Hrow. inversion Hrow; subst.
      repeat case_decide; try done; congruence.
    + destruct (Hg j x' y' z' tail) as (Hx & Hy & Hz); [lia|done|].
      repeat case_decide; try done;
        match goal with Heq : (_, _) = (_, _) |- _ => inversion Heq; lia end.
Qed.

End Loading.

(** ** The mesh as it is loaded and drawn *)

Section MeshClaims.
Context `{PyFloat}.
Import PyStr PyStrFacts.

(** C4 (amended).  The loader does not compare the node numbers of an
    element with the nodes of the node file: whenever the loading cells
    run to their end, every declared element line was passed to
    [NodesSet] as it is written, the element number and its four node
    numbers in the order of the line, whether or not these nodes exist. *)
Theorem element_lines_handed_as_written nf ef s j :
  load nf ef = Ok s ->
  (j < Z.to_nat (NumberOfElementsGet s))%nat ->
  exists t0 t1 t2 t3 t4 e n1 n2 n3 n4,
    split (nth_line (S j) ef) = [t0; t1; t2; t3; t4] /\
    int_of_str t0 = Some e /\
    int_of_str t1 = Some n1 /\ int_of_str t2 = Some n2 /\
    int_of_str t3 = Some n3 /\ int_of_str t4 = Some n4 /\
    meshElements s !! j = Some (e, [n1; n2; n3; n4]).
Proof.
  intros Hload Hj. destruct (load_Ok nf ef s Hload) as (_ & Hed & Hme & _).
  destruct (define_elements_Ok ef _ _ Hed Hme) as [_ Hcalls].
  specialize (Hcalls j Hj). unfold element_handed in Hcalls.
  by rewrite nth_line_S.
Qed.

(** C5 (amended).  The loader makes no test on the orientation of an
    element: what it does with an element file does not depend on the
    coordinates of the nodes.  If the element file loads with one node
    file, it loads with every readable node file that declares the same
    nodes, whatever their coordinates, and the node lists passed to
    [NodesSet] are the same. *)
Theorem load_ignores_coordinates nf nf' ef s nd' :
  load nf ef = Ok s ->
  read_node_file nf' = Ok nd' ->
  num_nodes nd' = num_nodes (node_input s) ->
  NodeNums nd' = NodeNums (node_input s) ->
  exists s', load nf' ef = Ok s' /\
             node_input s' = nd' /\
             meshElements s' = meshElements s.
Proof.
  intros Hload Hread _ _.
  destruct (load_Ok nf ef s Hload) as (_ & Hed & Hme & _).
  destruct (set_geometry_total nf' nd' Hread) as [geo Hgeo].
  unfold load. rewrite Hread, Hed. cbn [rbind]. rewrite Hme, Hgeo. cbn [rbind].
  eexists. split; [done|]. done.
Qed.

Lemma build_elements_list_Ok s el :
  build_elements_list s = Ok el ->
  length el = Z.to_nat (NumberOfElementsGet s) /\
  forall j, (j < Z.to_nat (NumberOfElementsGet s))%nat ->
    exists nodes n0 n1 n2 n3,
      NodesGet (meshElements s) (Z.of_nat j + 1) = Ok nodes /\
      nodes !! 0%nat = Some n0 /\ nodes !! 1%nat = Some n1 /\
      nodes !! 2%nat = Some n2 /\ nodes !! 3%nat = Some n3 /\
      el !! j = Some [Z.of_nat j + 1; n0; n1; n2; n3].
Proof.
  unfold build_elements_list. intros Hrun.
  apply (for_range_inv
           (fun k (t : list (list Z)) =>
              length t = Z.to_nat (NumberOfElementsGet s) /\
              forall j, (j < k)%nat ->
                exists nodes n0 n1 n2 n3,
                  NodesGet (meshElements s) (Z.of_nat j + 1) = Ok nodes /\
                  nodes !! 0%nat = Some n0 /\ nodes !! 1%nat = Some n1 /\
                  nodes !! 2%nat = Some n2 /\ nodes !! 3%nat = Some n3 /\
                  t !! j = Some [Z.of_nat j + 1; n0; n1; n2; n3]))
    in Hrun; [done| |].
  - rewrite length_replicate. split; [done|]. intros j Hj. lia.
  - intros k t t' Hk [Hlen Hrows] Hstep. unfold element_record, index in Hstep.
    destruct (NodesGet _ _) as [nodes|] eqn:Hget; [|done]. cbn [rbind] in Hstep.
    destruct (nodes !! 0%nat) as [n0|] eqn:H0; [|done].
    destruct (nodes !! 1%nat) as [n1|] eqn:H1; [|done].
    destruct (nodes !! 2%nat) as [n2|] eqn:H2; [|done].
    destruct (nodes !! 3%nat) as [n3|] eqn:H3; [|done].
    cbn in Hstep. unfold store1 in Hstep. case_decide; [|done].
    inversion Hstep; subst t'; clear Hstep. rewrite length_insert.
    split; [done|]. intros j Hj. destruct (decide (j = k)) as [->|Hne].
    + exists nodes, n0, n1, n2, n3.
      by rewrite list_lookup_insert_eq by lia.
    + destruct (Hrows j) as (nodes' & m0 & m1 & m2 & m3 & ?); [lia|].
      exists nodes', m0, m1, m2, m3.
      by rewrite list_lookup_insert_ne by lia.
Qed.

Lemma no_str_in_coords f nd :
  read_node_file f = Ok nd ->
  existsb is_str (List.concat (NodeCoords nd)) = false.
Proof.
  intros Hread.
  destruct (read_node_file_Ok f nd Hread) as (a & b & _ & _ & Hlen & Hrows).
  destruct (existsb _ _) eqn:Hex; [|done]. exfalso.
  apply existsb_exists in Hex as (v & Hin & Hv).
  apply in_concat in Hin as (row & Hrow & Hin).
  apply list_elem_of_In, list_elem_of_lookup in Hrow as [i Hi].
  assert (i < Z.to_nat (num_nodes nd))%nat as Hlt.
  { rewrite <- Hlen. by apply lookup_lt_Some in Hi. }
  destruct (Hrows i Hlt) as (t0 & t1 & t2 & t3 & id & x & y & z & _ & _ & _ & _ & _
                             & _ & Hc & _).
  rewrite Hc in Hi. inversion Hi; subst row; clear Hi.
  apply list_elem_of_In in Hin.
  repeat (apply elem_of_cons in Hin as [->|Hin]; [done|]).
  apply elem_of_replicate in Hin as [-> _]. done.
Qed.

Lemma np_cast_float l x :
  existsb is_str l = false -> np_cast l (VFloat x) = VFloat x.
Proof.
  intros Hl. unfold np_cast. rewrite Hl. by destruct (existsb is_float l).
Qed.

(** C6 (amended).  In the VTK export of a loaded mesh with a number of
    nodes that is not negative and at least one element, row [j] of the
    cell array holds the four node numbers of element [j + 1], each
    minus 1, and row [i] of the solution array holds the solution value
    of node [i + 1]: both whatever the order of the node file.  Row [i]
    of the points array holds the coordinates of node [i + 1] when the
    node file numbers its lines 1, 2, ... in this order. *)
Theorem vtk_arrays_aligned nf ef s el :
  load nf ef = Ok s ->
  build_elements_list s = Ok el ->
  0 <= NumberOfNodesGet s ->
  0 < NumberOfElementsGet s ->
  exists v ca,
    vtk_export s el = Ok v /\
    cells v = [("tetra", ca)] /\
    length ca = Z.to_nat (NumberOfElementsGet s) /\
    (forall j, (j < Z.to_nat (NumberOfElementsGet s))%nat ->
       exists nodes n0 n1 n2 n3,
         NodesGet (meshElements s) (Z.of_nat j + 1) = Ok nodes /\
         nodes !! 0%nat = Some n0 /\ nodes !! 1%nat = Some n1 /\
         nodes !! 2%nat = Some n2 /\ nodes !! 3%nat = Some n3 /\
         ca !! j = Some [n0 - 1; n1 - 1; n2 - 1; n3 - 1]) /\
    point_data v
      = [("solution",
          (fun i => ParameterSetGetNodeDP (solution_field s)
                      (Z.of_nat i + 1) 1)
          <$> seq 0 (Z.to_nat (NumberOfNodesGet s)))] /\
    length (points v) = Z.to_nat (NumberOfNodesGet s) /\
    ((forall i, (i < Z.to_nat (NumberOfNodesGet s))%nat ->
        load2 (NodeNums (node_input s)) i 0 = Ok (VInt (Z.of_nat i + 1))) ->
     forall i, (i < Z.to_nat (NumberOfNodesGet s))%nat ->
       exists row,
         points v !! i = Some row /\
         row !! 0%nat
           = Some (VFloat (ParameterSetGetNodeDP (geometric_field s)
                             (Z.of_nat i + 1) 1)) /\
         row !! 1%nat
           = Some (VFloat (ParameterSetGetNodeDP (geometric_field s)
                             (Z.of_nat i + 1) 2)) /\
         row !! 2%nat
           = Some (VFloat (ParameterSetGetNodeDP (geometric_field s)
                             (Z.of_nat i + 1) 3))).
Proof.
  intros Hload Hel Hn Hm.
  destruct (load_Ok nf ef s Hload) as (Hnd & _ & _ & Hgeo & _).
  destruct (build_elements_list_Ok s el Hel) as [Hlen Hrows].
  destruct (read_node_file_Ok nf _ Hnd) as (a & b & _ & _ & Hlc & Hdone).
  pose proof (no_str_in_coords nf _ Hnd) as Hstr.
  unfold vtk_export, cells_array.
  destruct el as [|row0 el']; [cbn in Hlen; lia|].
  cbn [rbind]. rewrite (solution_field_nodes_spec s Hn). cbn [rbind].
  eexists _, _. split; [done|]. cbn [cells points point_data].
  split; [done|]. split; [by rewrite length_fmap|].
  split; [|split; [done|split]].
  - intros j Hj.
    destruct (Hrows j Hj) as (nodes & n0 & n1 & n2 & n3 & ? & ? & ? & ? & ? & Hr).
    exists nodes, n0, n1, n2, n3. rewrite list_lookup_fmap, Hr. done.
  - unfold np_array2, NumberOfNodesGet. by rewrite length_fmap.
  - intros Hord i Hi.
    pose proof (set_geometry_in_order nf _ _ Hnd Hgeo Hord) as Hset.
    unfold NumberOfNodesGet in *.
    destruct (Hdone i Hi) as (t0 & t1 & t2 & t3 & id & x & y & z & _ & _ & _ & _
                              & _ & _ & Hc & _).
    destruct (Hset i x y z _ Hi Hc) as (Hx & Hy & Hz).
    eexists. unfold np_array2. rewrite list_lookup_fmap, Hc. cbn [fmap option_fmap option_map].
    split; [done|].
    rewrite !list_lookup_fmap. cbn.
    rewrite !np_cast_float by done. by rewrite Hx, Hy, Hz.
Qed.

End MeshClaims.

(** * Further properties of the cells *)

(** ** Cell 3, in both directions *)

Section NodeReader.
Context `{PyFloat}.
Import PyStr PyStrFacts.

Lemma parse_node_line_Some line r :
  parse_node_line line = Some r <->
  exists t0 t1 t2 t3 id x y z,
    split line = [t0; t1; t2; t3] /\ int_of_str t0 = Some id /\
    float_of_str t1 = Some x /\ float_of_str t2 = Some y /\
    float_of_str t3 = Some z /\ r = (id, x, y, z).
Proof.
  unfold parse_node_line. split.
  - destruct (split line) as [|t0 [|t1 [|t2 [|t3 [|]]]]]; try done.
    destruct (int_of_str t0) as [id|] eqn:?; [|done].
    destruct (float_of_str t1) as [x|] eqn:?; [|done].
    destruct (float_of_str t2) as [y|] eqn:?; [|done].
    destruct (float_of_str t3) as [z|] eqn:?; [|done].
    intros [= <-]. by exists t0, t1, t2, t3, id, x, y, z.
  - intros (t0 & t1 & t2 & t3 & id & x & y & z & -> & -> & -> & -> & -> & ->).
    done.
Qed.

Lemma node_row_done_parse f0 d nums coords j :
  node_row_done f0 (Z.to_nat d) nums coords j <->
  exists r, parse_node_line (nth_line j f0) = Some r /\
            nums !! j = Some (node_nums_row r) /\
            coords !! j = Some (node_coords_row d r) /\
            (3 <= Z.to_nat d)%nat.
Proof.
  unfold node_row_done. split.
  - intros (t0 & t1 & t2 & t3 & id & x & y & z & ? & ? & ? & ? & ? & ? & ? & ?).
    exists (id, x, y, z). split; [|done].
    apply parse_node_line_Some. by exists t0, t1, t2, t3, id, x, y, z.
  - intros (r & Hr & ? & ? & ?).
    apply parse_node_line_Some in Hr
      as (t0 & t1 & t2 & t3 & id & x & y & z & ? & ? & ? & ? & ? & ->).
    exists t0, t1, t2, t3, id, x, y, z. done.
Qed.

(** A turn of the node loop on a line that parses, in dimension 3 or
    more. *)
Lemma node_loop_turn f0 n d k st r :
  (k < n)%nat -> (3 <= d)%nat -> node_loop_inv f0 n d k st ->
  parse_node_line (nth_line k f0) = Some r ->
  exists st', read_node_line k st = Ok st'.
Proof.
  destruct st as [[nums coords] f]. intros Hk Hd (Hf & _ & _ & Hz & _) Hr.
  destruct (Hz k) as [Hnk Hck]; [lia|].
  rewrite (read_node_line_spec _ _ _ _ _ _ Hnk ltac:(cbn; lia) Hck).
  apply parse_node_line_Some in Hr
    as (t0 & t1 & t2 & t3 & id & x & y & z & Hsp & H0 & H1 & H2 & H3 & _).
  unfold nth_line in Hsp. rewrite <- Hf in Hsp. rewrite Hsp.
  rewrite length_replicate. case_decide; [|lia].
  rewrite H0, H1, H2, H3. cbn. eauto.
Qed.

(** X1.  A node file reads in full as soon as its header declares a
    dimension of at least 3 and each declared line holds a node number
    and three floats.  Row [k] of [NodeNums] is then the node number of
    line [k + 1] and a zero, and row [k] of [NodeCoords] its three
    coordinates, followed by zeros up to the declared dimension. *)
Theorem node_file_read_in_full f n d a b rest
    (recs : nat -> Z * float * float * float) :
  read_node_header f = Ok (n, d, a, b, rest) ->
  3 <= d ->
  (forall k, (k < Z.to_nat n)%nat ->
     parse_node_line (nth_line (S k) f) = Some (recs k)) ->
  read_node_file f
    = Ok {| num_nodes := n; num_coords := d; num_attributes := a;
            boundary_markers := b;
            NodeNums := (fun k => node_nums_row (recs k))
                        <$> seq 0 (Z.to_nat n);
            NodeCoords := (fun k => node_coords_row d (recs k))
                          <$> seq 0 (Z.to_nat n) |}.
Proof.
  intros Hh Hd Hlines. unfold read_node_file. rewrite Hh. cbn [rbind].
  pose proof (read_node_header_inv _ _ _ _ _ _ Hh) as ->.
  destruct (for_range_ok
              (node_loop_inv (readline f).2 (Z.to_nat n) (Z.to_nat d))
              read_node_line (Z.to_nat n) 0
              (zeros n 2, zeros n d, (readline f).2))
    as ([[nums coords] f'] & Hrun & _ & Hln & Hlc & _ & Hrows).
  - apply node_loop_init.
  - intros k st Hk Hinv.
    assert (k < Z.to_nat n)%nat as Hk' by lia.
    assert (3 <= Z.to_nat d)%nat as Hd' by lia.
    destruct (node_loop_turn _ _ _ k st (recs k) Hk' Hd' Hinv)
      as [st' Hst'].
    { rewrite <- nth_line_S. by apply Hlines. }
    exists st'. split; [done|]. by apply (node_loop_step _ _ _ k st).
  - rewrite Hrun. cbn [rbind]. f_equal. f_equal.
    + apply list_eq. intros j. rewrite list_lookup_fmap.
      destruct (decide (j < Z.to_nat n)%nat) as [Hj|Hj].
      * rewrite lookup_seq_lt by lia. cbn.
        destruct (proj1 (node_row_done_parse _ _ _ _ _) (Hrows j Hj))
          as (r & Hr & -> & _).
        rewrite <- nth_line_S, Hlines in Hr by lia. by inversion Hr.
      * rewrite lookup_seq_ge by lia. apply lookup_ge_None_2. lia.
    + apply list_eq. intros j. rewrite list_lookup_fmap.
      destruct (decide (j < Z.to_nat n)%nat) as [Hj|Hj].
      * rewrite lookup_seq_lt by lia. cbn.
        destruct (proj1 (node_row_done_parse _ _ _ _ _) (Hrows j Hj))
          as (r & Hr & _ & -> & _).
        rewrite <- nth_line_S, Hlines in Hr by lia. by inversion Hr.
      * rewrite lookup_seq_ge by lia. apply lookup_ge_None_2. lia.
Qed.

(** X2.  Conversely, when a node file was read, every declared line held
    a node number and three floats, and the declared dimension was at
    least 3 if a node was declared.  The second cell of each row of
    [NodeNums], made for the boundary marker, is still zero: no marker is
    ever stored. *)
Theorem node_file_read_only_if f nd :
  read_node_file f = Ok nd ->
  length (NodeNums nd) = Z.to_nat (num_nodes nd) /\
  length (NodeCoords nd) = Z.to_nat (num_nodes nd) /\
  (0 < num_nodes nd -> 3 <= num_coords nd) /\
  forall k, (k < Z.to_nat (num_nodes nd))%nat ->
    exists r,
      parse_node_line (nth_line (S k) f) = Some r /\
      NodeNums nd !! k = Some (node_nums_row r) /\
      NodeCoords nd !! k = Some (node_coords_row (num_coords nd) r) /\
      load2 (NodeNums nd) k 1 = Ok (VInt 0).
Proof.
  intros Hrun.
  destruct (read_node_file_Ok f nd Hrun) as (a & b & _ & Hln & Hlc & Hrows).
  split; [done|]. split; [done|]. split.
  - intros Hn. destruct (proj1 (node_row_done_parse _ _ _ _ _)
                           (Hrows 0%nat ltac:(lia))) as (_ & _ & _ & _ & ?).
    lia.
  - intros k Hk.
    destruct (proj1 (node_row_done_parse _ _ _ _ _) (Hrows k Hk))
      as (r & Hr & Hn & Hc & _).
    exists r. rewrite nth_line_S. split_and!; try done.
    unfold load2. rewrite Hn. by destruct r as [[[? ?] ?] ?].
Qed.

(** What a turn of the node loop does depends on the line it reads, not
    on what follows it in the file. *)
Lemma read_node_line_same_line i (nums coords : table) g g' :
  (readline g).1 = (readline g').1 ->
  (exists e, read_node_line i (nums, coords, g) = Raise e /\
             read_node_line i (nums, coords, g') = Raise e) \/
  (exists nums' coords',
     read_node_line i (nums, coords, g) = Ok (nums', coords', (readline g).2) /\
     read_node_line i (nums, coords, g')
       = Ok (nums', coords', (readline g').2)).
Proof.
  unfold read_node_line.
  destruct (readline g) as [l r], (readline g') as [l' r']. cbn [fst snd].
  intros <-.
  destruct (split l) as [|t0 [|t1 [|t2 [|t3 [|]]]]]; try (left; by eauto).
  repeat match goal with
         | |- context [rbind ?m _] =>
             destruct m; cbn [rbind]; [|left; by eauto]
         end.
  right. eauto.
Qed.

Lemma node_loop_same_lines count i (nums coords : table) g g' :
  (forall k, (k < count)%nat -> nth_line k g = nth_line k g') ->
  tables_of (for_range count i read_node_line (nums, coords, g))
  = tables_of (for_range count i read_node_line (nums, coords, g')).
Proof.
  revert i nums coords g g'.
  induction count as [|count IH]; intros i nums coords g g' Hl; [done|].
  cbn [for_range].
  destruct (read_node_line_same_line i nums coords g g')
    as [(e & -> & ->)|(nums' & coords' & -> & ->)].
  - apply (Hl 0%nat). lia.
  - done.
  - cbn [rbind]. apply IH. intros k Hk.
    rewrite <- !nth_line_S. apply Hl. lia.
Qed.

(** X3.  The node reader stops after the declared lines: two files with
    the same header line and the same declared lines are read alike,
    whatever follows. *)
Theorem node_reader_ignores_the_rest f f' n d a b rest :
  read_node_header f = Ok (n, d, a, b, rest) ->
  (forall k, (k <= Z.to_nat n)%nat -> nth_line k f' = nth_line k f) ->
  read_node_file f' = read_node_file f.
Proof.
  intros Hh Hl.
  assert (read_node_header f' = Ok (n, d, a, b, (readline f').2)) as Hh'.
  { pose proof (Hl 0%nat ltac:(lia)) as H0. rewrite !nth_line_0 in H0.
    revert Hh. unfold read_node_header.
    destruct (readline f) as [l r], (readline f') as [l' r'].
    cbn [fst snd] in *. subst l'.
    destruct (split l) as [|t0 [|t1 [|t2 [|t3 [|]]]]]; try done.
    destruct (int_of_str t0); [|done]. destruct (int_of_str t1); [|done].
    destruct (int_of_str t2); [|done]. destruct (int_of_str t3); [|done].
    cbn. by intros [= -> -> -> -> _]. }
  pose proof (read_node_header_inv _ _ _ _ _ _ Hh) as ->.
  unfold read_node_file. rewrite Hh, Hh'. cbn [rbind].
  pose proof (node_loop_same_lines (Z.to_nat n) 0 (zeros n 2) (zeros n d)
                (readline f').2 (readline f).2) as Hsame.
  assert (forall k, (k < Z.to_nat n)%nat ->
            nth_line k (readline f').2 = nth_line k (readline f).2) as Hl'.
  { intros k Hk. rewrite <- !nth_line_S. apply Hl. lia. }
  specialize (Hsame Hl').
  destruct (for_range _ _ _ (_, _, (readline f').2)) as [[[u v] w]|e1];
    destruct (for_range _ _ _ (_, _, (readline f).2)) as [[[u' v'] w']|e2];
    cbn in Hsame |- *; by inversion Hsame.
Qed.

(** X4.  The node reader raises nothing but [ValueError] and
    [IndexError], and [IndexError] only for a header that declares at
    least one node and a dimension below 3. *)
Theorem node_reader_raises f e :
  read_node_file f = Raise e ->
  e = ValueError \/
  (e = IndexError /\
   exists n d a b rest,
     read_node_header f = Ok (n, d, a, b, rest) /\ 0 < n /\ d < 3).
Proof.
  intros Hrun. destruct (read_node_file_raise f e Hrun) as [-> | ->]; [by left|].
  right. split; [done|].
  destruct (read_node_header f) as [[[[[n d] a] b] rest]|e'] eqn:Hh.
  - exists n, d, a, b, rest. split; [done|].
    destruct (decide (3 <= d)) as [Hd|Hd].
    { by pose proof (read_node_file_raise_dim f _ n d a b rest Hh Hd Hrun). }
    split; [|lia].
    destruct (decide (0 < n)) as [Hn|Hn]; [done|]. exfalso.
    unfold read_node_file in Hrun. rewrite Hh in Hrun. cbn [rbind] in Hrun.
    replace (Z.to_nat n) with 0%nat in Hrun by lia. done.
  - unfold read_node_file in Hrun. rewrite Hh in Hrun. cbn in Hrun.
    inversion Hrun; subst. by apply read_node_header_raise in Hh.
Qed.

End NodeReader.

(** ** Cells 4 and 9, in both directions *)

Section ElemReader.
Context `{PyFloat}.
Import PyStr PyStrFacts.

Lemma elem_row_done_rows f0 w index map j :
  elem_row_done f0 (Z.to_nat w) index map j <->
  length (split (nth_line j f0)) = 5%nat /\
  index !! j = Some (elem_index_row (split (nth_line j f0))) /\
  map !! j = Some (elem_map_row w (split (nth_line j f0))) /\
  (4 <= Z.to_nat w)%nat.
Proof.
  unfold elem_row_done, elem_index_row, elem_map_row. split.
  - intros (t0 & t1 & t2 & t3 & t4 & -> & ? & ? & ?). done.
  - intros (Hlen & ? & ? & ?).
    destruct (split (nth_line j f0)) as [|t0 [|t1 [|t2 [|t3 [|t4 [|]]]]]];
      try done.
    by exists t0, t1, t2, t3, t4.
Qed.

Lemma elem_loop_turn f0 n w k st :
  (k < n)%nat -> (4 <= w)%nat -> elem_loop_inv f0 n w k st ->
  length (split (nth_line k f0)) = 5%nat ->
  exists st', read_elem_line k st = Ok st'.
Proof.
  destruct st as [[index map] f]. intros Hk Hw (Hf & _ & _ & Hz & _) Hlen.
  destruct (Hz k) as [Hnk Hck]; [lia|].
  rewrite (read_elem_line_spec _ _ _ _ _ _ Hnk ltac:(cbn; lia) Hck).
  unfold nth_line in Hlen. rewrite <- Hf in Hlen.
  destruct (split (readline f).1) as [|t0 [|t1 [|t2 [|t3 [|t4 [|]]]]]];
    try done.
  rewrite length_replicate. case_decide; [|lia]. eauto.
Qed.

(** X5.  An element file reads in full as soon as its header declares
    rows of at least four cells (nodes per element plus attributes) and
    each declared line holds five tokens.  The tokens are stored as
    strings, whatever they spell: the first in [Elemindex], the four
    others at the head of the row of [ElemMap]. *)
Theorem elem_file_read_in_full f n k a rest :
  read_elem_header f = Ok (n, k, a, rest) ->
  4 <= k + a ->
  (forall j, (j < Z.to_nat n)%nat ->
     length (split (nth_line (S j) f)) = 5%nat) ->
  read_elem_file f
    = Ok {| num_elements := n; nodes_per_ele := k; ele_attributes := a;
            ElemMap := (fun j => elem_map_row (k + a)
                                   (split (nth_line (S j) f)))
                       <$> seq 0 (Z.to_nat n);
            Elemindex := (fun j => elem_index_row (split (nth_line (S j) f)))
                         <$> seq 0 (Z.to_nat n) |}.
Proof.
  intros Hh Hw Hlines. unfold read_elem_file. rewrite Hh. cbn [rbind].
  pose proof (read_elem_header_inv _ _ _ _ _ Hh) as ->.
  destruct (for_range_ok
              (elem_loop_inv (readline f).2 (Z.to_nat n) (Z.to_nat (k + a)))
              read_elem_line (Z.to_nat n) 0
              (zeros n 1, zeros n (k + a), (readline f).2))
    as ([[index map] f'] & Hrun & _ & Hln & Hlc & _ & Hrows).
  - apply elem_loop_init.
  - intros j st Hj Hinv.
    assert (j < Z.to_nat n)%nat as Hj' by lia.
    assert (4 <= Z.to_nat (k + a))%nat as Hw' by lia.
    destruct (elem_loop_turn _ _ _ j st Hj' Hw' Hinv) as [st' Hst'].
    { rewrite <- nth_line_S. by apply Hlines. }
    exists st'. split; [done|]. by apply (elem_loop_step _ _ _ j st).
  - rewrite Hrun. cbn [rbind]. f_equal. f_equal.
    + apply list_eq. intros j. rewrite list_lookup_fmap.
      destruct (decide (j < Z.to_nat n)%nat) as [Hj|Hj].
      * rewrite lookup_seq_lt by lia. cbn.
        destruct (proj1 (elem_row_done_rows _ _ _ _ _) (Hrows j Hj))
          as (_ & _ & -> & _).
        by rewrite nth_line_S.
      * rewrite lookup_seq_ge by lia. apply lookup_ge_None_2. lia.
    + apply list_eq. intros j. rewrite list_lookup_fmap.
      destruct (decide (j < Z.to_nat n)%nat) as [Hj|Hj].
      * rewrite lookup_seq_lt by lia. cbn.
        destruct (proj1 (elem_row_done_rows _ _ _ _ _) (Hrows j Hj))
          as (_ & -> & _ & _).
        by rewrite nth_line_S.
      * rewrite lookup_seq_ge by lia. apply lookup_ge_None_2. lia.
Qed.

(** X6.  Conversely, when an element file was read, every declared line
    held exactly five tokens, whatever number of nodes per element and of
    attributes the header declares, and the rows had at least four cells
    if an element was declared. *)
Theorem elem_file_read_only_if f ed :
  read_elem_file f = Ok ed ->
  length (Elemindex ed) = Z.to_nat (num_elements ed) /\
  length (ElemMap ed) = Z.to_nat (num_elements ed) /\
  (0 < num_elements ed -> 4 <= nodes_per_ele ed + ele_attributes ed) /\
  forall j, (j < Z.to_nat (num_elements ed))%nat ->
    length (split (nth_line (S j) f)) = 5%nat /\
    Elemindex ed !! j = Some (elem_index_row (split (nth_line (S j) f))) /\
    ElemMap ed !! j
      = Some (elem_map_row (nodes_per_ele ed + ele_attributes ed)
                (split (nth_line (S j) f))).
Proof.
  intros Hrun.
  destruct (read_elem_file_Ok f ed Hrun) as (_ & Hln & Hlc & Hrows).
  split; [done|]. split; [done|]. split.
  - intros Hn. destruct (proj1 (elem_row_done_rows _ _ _ _ _)
                           (Hrows 0%nat ltac:(lia))) as (_ & _ & _ & ?).
    lia.
  - intros j Hj.
    destruct (proj1 (elem_row_done_rows _ _ _ _ _) (Hrows j Hj))
      as (? & ? & ? & _).
    by rewrite nth_line_S.
Qed.

(** X7.  The element reader raises nothing but [ValueError] and
    [IndexError], and [IndexError] only for a header that declares at
    least one element and rows of fewer than four cells. *)
Theorem elem_reader_raises f e :
  read_elem_file f = Raise e ->
  e = ValueError \/
  (e = IndexError /\
   exists n k a rest,
     read_elem_header f = Ok (n, k, a, rest) /\ 0 < n /\ k + a < 4).
Proof.
  unfold read_elem_file. intros Hrun.
  destruct (read_elem_header f) as [[[[n k] a] rest]|e'] eqn:Hh.
  - cbn [rbind] in Hrun.
    destruct (for_range _ _ _ _) as [[[index map] f']|e'] eqn:Hloop; [done|].
    cbn in Hrun. inversion Hrun; subst e'.
    assert ((e = ValueError \/ e = IndexError) /\
            ((4 <= Z.to_nat (k + a))%nat -> e = ValueError)) as [Hk Hv].
    { eapply (for_range_raise
                (elem_loop_inv rest (Z.to_nat n) (Z.to_nat (k + a)))
                (fun e => (e = ValueError \/ e = IndexError) /\
                          ((4 <= Z.to_nat (k + a))%nat -> e = ValueError)));
        [| | |exact Hloop].
      - apply elem_loop_init.
      - intros j t t' Hj. apply elem_loop_step. lia.
      - intros j t e' Hj Hinv Hr.
        assert (j < Z.to_nat n)%nat as Hj' by lia.
        apply (elem_loop_raise _ _ _ _ _ _ Hj' Hinv Hr). }
    destruct Hk as [-> | ->]; [by left|]. right. split; [done|].
    exists n, k, a, rest. split; [done|].
    destruct (decide (4 <= k + a)) as [Hw|Hw].
    { assert (IndexError = ValueError) by (apply Hv; lia). done. }
    split; [|lia].
    destruct (decide (0 < n)) as [Hn|Hn]; [done|]. exfalso.
    replace (Z.to_nat n) with 0%nat in Hloop by lia. done.
  - cbn in Hrun. inversion Hrun; subst. left.
    by apply read_elem_header_raise in Hh.
Qed.

Lemma parse_elem_line_Some line c :
  parse_elem_line line = Some c <->
  exists t0 t1 t2 t3 t4 e n1 n2 n3 n4,
    split line = [t0; t1; t2; t3; t4] /\ int_of_str t0 = Some e /\
    int_of_str t1 = Some n1 /\ int_of_str t2 = Some n2 /\
    int_of_str t3 = Some n3 /\ int_of_str t4 = Some n4 /\
    c = (e, [n1; n2; n3; n4]).
Proof.
  unfold parse_elem_line. split.
  - destruct (split line) as [|t0 [|t1 [|t2 [|t3 [|t4 [|]]]]]]; try done.
    destruct (int_of_str t0) as [e|] eqn:?; [|done].
    destruct (int_of_str t1) as [n1|] eqn:?; [|done].
    destruct (int_of_str t2) as [n2|] eqn:?; [|done].
    destruct (int_of_str t3) as [n3|] eqn:?; [|done].
    destruct (int_of_str t4) as [n4|] eqn:?; [|done].
    intros [= <-]. by exists t0, t1, t2, t3, t4, e, n1, n2, n3, n4.
  - intros (t0 & t1 & t2 & t3 & t4 & e & n1 & n2 & n3 & n4
            & -> & -> & -> & -> & -> & -> & ->).
    done.
Qed.

(** Cell 9 on a row that cell 4 has filled. *)
Lemma define_element_row f ed j me :
  read_elem_file f = Ok ed -> (j < Z.to_nat (num_elements ed))%nat ->
  define_element ed j me
    = match parse_elem_line (nth_line (S j) f) with
      | Some (e, nodes) => Ok (NodesSet me e nodes)
      | None => Raise ValueError
      end.
Proof.
  intros Hread Hj.
  destruct (read_elem_file_Ok f ed Hread) as (_ & _ & _ & Hrows).
  destruct (Hrows j Hj) as (t0 & t1 & t2 & t3 & t4 & Hsp & Hi & Hm & _).
  rewrite (define_element_spec _ _ _ _ _ _ _ _ _ Hi Hm).
  rewrite nth_line_S. unfold parse_elem_line. rewrite Hsp.
  destruct (int_of_str t1), (int_of_str t2), (int_of_str t3),
    (int_of_str t4), (int_of_str t0); done.
Qed.

(** X8.  After the element file is read, the loop of cell 9 runs to its
    end as soon as the five tokens of every declared line are integers
    (the library accepting every call), and then it has called
    [NodesSet] once per line, in the order of the file, with the element
    number and the four node numbers of the line. *)
Theorem elements_defined_in_full f ed (calls : nat -> Z * list Z) :
  read_elem_file f = Ok ed ->
  (forall j, (j < Z.to_nat (num_elements ed))%nat ->
     parse_elem_line (nth_line (S j) f) = Some (calls j)) ->
  define_elements ed = Ok (calls <$> seq 0 (Z.to_nat (num_elements ed))).
Proof.
  intros Hread Hlines. unfold define_elements.
  destruct (for_range_ok
              (fun k (me : mesh_elements) => me = calls <$> seq 0 k)
              (define_element ed) (Z.to_nat (num_elements ed)) 0 [])
    as (me & Hrun & ->); [done| |done].
  intros k me Hk ->.
  rewrite (define_element_row f) by (done || lia).
  rewrite Hlines by lia. destruct (calls k) as [e nodes] eqn:Hc.
  eexists. split; [done|].
  unfold NodesSet. rewrite seq_S, fmap_app. cbn. by rewrite Hc.
Qed.

(** X9.  After the element file is read, the Python code of cell 9
    raises nothing but [ValueError], and only when a token of a declared
    line is not an integer: the tokens are first converted here, not in
    the reader. *)
Theorem element_definition_raises f ed e :
  read_elem_file f = Ok ed ->
  define_elements ed = Raise e ->
  e = ValueError /\
  exists j, (j < Z.to_nat (num_elements ed))%nat /\
            parse_elem_line (nth_line (S j) f) = None.
Proof.
  intros Hread Hrun. unfold define_elements in Hrun.
  eapply (for_range_raise (fun _ (_ : mesh_elements) => True)
            (fun e => e = ValueError /\
                      exists j, (j < Z.to_nat (num_elements ed))%nat /\
                                parse_elem_line (nth_line (S j) f) = None));
    [| | |exact Hrun]; [done..|].
  intros k me e' Hk _ Hstep.
  rewrite (define_element_row f) in Hstep by (done || lia).
  destruct (parse_elem_line (nth_line (S k) f)) as [[e0 nodes]|] eqn:Hp;
    [done|].
  inversion Hstep; subst. split; [done|]. exists k. split; [lia|done].
Qed.

End ElemReader.

(** ** Cell 13 and the loading cells together *)

Section Geometry.
Context `{PyFloat}.
Import PyStr PyStrFacts.

Lemma set_node_geometry_parsed f nd k geo id x y z :
  read_node_file f = Ok nd -> (k < Z.to_nat (num_nodes nd))%nat ->
  parse_node_line (nth_line (S k) f) = Some (id, x, y, z) ->
  set_node_geometry nd k geo
    = Ok (ParameterSetUpdateNodeDP
            (ParameterSetUpdateNodeDP
               (ParameterSetUpdateNodeDP geo id 1 x) id 2 y) id 3 z).
Proof.
  intros Hread Hk Hp.
  destruct (read_node_file_Ok f nd Hread) as (a & b & _ & _ & _ & Hrows).
  destruct (proj1 (node_row_done_parse _ _ _ _ _) (Hrows k Hk))
    as (r & Hr & Hn & Hc & _).
  rewrite <- nth_line_S, Hp in Hr. inversion Hr; subst r.
  by apply (set_node_geometry_spec nd k geo id (VInt 0) x y z
              (replicate (Z.to_nat (num_coords nd) - 3) (VInt 0))).
Qed.

(** X10.  On a node file that was read, the Python code of cell 13
    raises nothing.  With the library accepting every update, the
    geometric field afterwards holds, for a node number, the coordinates
    of the last declared line that carries this number, and 0.0 in every
    component for a number that no declared line carries. *)
Theorem geometry_of_the_last_line f nd :
  read_node_file f = Ok nd ->
  exists geo,
    set_geometry nd = Ok geo /\
    forall node,
      (forall k x y z, (k < Z.to_nat (num_nodes nd))%nat ->
         parse_node_line (nth_line (S k) f) = Some (node, x, y, z) ->
         (forall k' x' y' z', (k < k' < Z.to_nat (num_nodes nd))%nat ->
            parse_node_line (nth_line (S k') f) <> Some (node, x', y', z')) ->
         ParameterSetGetNodeDP geo node 1 = x /\
         ParameterSetGetNodeDP geo node 2 = y /\
         ParameterSetGetNodeDP geo node 3 = z) /\
      ((forall k x y z, (k < Z.to_nat (num_nodes nd))%nat ->
          parse_node_line (nth_line (S k) f) <> Some (node, x, y, z)) ->
       forall c, ParameterSetGetNodeDP geo node c = float_of_int 0).
Proof.
  intros Hread.
  pose proof (read_node_file_Ok f nd Hread) as (a & b & _ & _ & _ & Hrows).
  unfold set_geometry.
  destruct (for_range_ok
    (fun n (geo : field) =>
       forall node,
         (forall k x y z, (k < n)%nat ->
            parse_node_line (nth_line (S k) f) = Some (node, x, y, z) ->
            (forall k' x' y' z', (k < k' < n)%nat ->
               parse_node_line (nth_line (S k') f)
               <> Some (node, x', y', z')) ->
            ParameterSetGetNodeDP geo node 1 = x /\
            ParameterSetGetNodeDP geo node 2 = y /\
            ParameterSetGetNodeDP geo node 3 = z) /\
         ((forall k x y z, (k < n)%nat ->
             parse_node_line (nth_line (S k) f) <> Some (node, x, y, z)) ->
          forall c, ParameterSetGetNodeDP geo node c = float_of_int 0))
    (set_node_geometry nd) (Z.to_nat (num_nodes nd)) 0 new_field)
    as (geo & Hrun & Hgeo).
  - intros node. split; [intros; lia|]. intros _ c.
    unfold ParameterSetGetNodeDP, new_field. cbn. by rewrite lookup_empty.
  - intros n geo Hn Hinv.
    assert (n < Z.to_nat (num_nodes nd))%nat as Hn' by lia.
    destruct (proj1 (node_row_done_parse _ _ _ _ _) (Hrows n Hn'))
      as ([[[id xn] yn] zn] & Hr & _).
    rewrite <- nth_line_S in Hr.
    rewrite (set_node_geometry_parsed f nd n geo id xn yn zn Hread Hn' Hr).
    eexists. split; [done|]. intros node. split.
    + intros k x y z Hk Hp Hlast. rewrite !get_update.
      destruct (decide (k = n)) as [->|Hne].
      * rewrite Hp in Hr. inversion Hr; subst.
        repeat case_decide; try done; congruence.
      * assert (id <> node) as Hid.
        { intros ->. apply (Hlast n xn yn zn); [lia|done]. }
        destruct (Hinv node) as [Hin _].
        destruct (Hin k x y z) as (? & ? & ?); [lia|done| |].
        { intros k' x' y' z' Hk'. apply Hlast. lia. }
        repeat case_decide; try done; congruence.
    + intros Hnone c. rewrite !get_update.
      assert (id <> node) as Hid.
      { intros ->. by apply (Hnone n xn yn zn); [lia|]. }
      destruct (Hinv node) as [_ Hout].
      repeat case_decide; try congruence.
      apply Hout. intros k x y z Hk. apply Hnone. lia.
  - exists geo. split; [done|]. exact Hgeo.
Qed.

(** X11.  The Python code that loads a mesh (the two readers, cell 9 and
    cell 13) raises nothing but [ValueError] and [IndexError]; what the
    library may raise on its arguments is outside the model. *)
Theorem load_raises nf ef e :
  load nf ef = Raise e -> e = ValueError \/ e = IndexError.
Proof.
  unfold load. intros Hrun.
  destruct (read_node_file nf) as [nd|e1] eqn:Hnd.
  2:{ cbn in Hrun. inversion Hrun; subst. by apply (read_node_file_raise nf). }
  destruct (read_elem_file ef) as [ed|e2] eqn:Hed.
  2:{ cbn in Hrun. inversion Hrun; subst. by apply (read_elem_file_raise ef). }
  cbn [rbind] in Hrun.
  destruct (define_elements ed) as [me|e3] eqn:Hme.
  2:{ cbn in Hrun. inversion Hrun; subst. left.
      unfold define_elements in Hme.
      eapply (for_range_raise (fun _ (_ : mesh_elements) => True)
                (fun e => e = ValueError)); [| | |exact Hme]; [done..|].
      intros k me e' Hk _ Hstep.
      rewrite (define_element_row ef) in Hstep by (done || lia).
      destruct (parse_elem_line _) as [[e0 nodes]|]; [done|].
      by inversion Hstep. }
  cbn [rbind] in Hrun.
  destruct (set_geometry_total nf nd Hnd) as [geo Hgeo].
  rewrite Hgeo in Hrun. done.
Qed.

End Geometry.

(** ** The exports of a loaded mesh *)

Section LoadedExports.
Context `{PyFloat}.
Import PyStr PyStrFacts.

Lemma NodesGet_snoc (me : mesh_elements) e' l' e :
  NodesGet (NodesSet me e' l') e
    = if decide (e' = e) then Ok l' else NodesGet me e.
Proof.
  unfold NodesGet, NodesSet. rewrite reverse_app. cbn.
  case_decide; [done|].
  by destruct (list_find _ (reverse me)) as [[i c]|].
Qed.

(** [NodesGet] answers with the latest call for the element. *)
Lemma NodesGet_lookup (me : mesh_elements) j e l :
  me !! j = Some (e, l) ->
  (forall j' e' l', (j < j')%nat -> me !! j' = Some (e', l') -> e' <> e) ->
  NodesGet me e = Ok l.
Proof.
  revert j. induction me as [|[e0 l0] me IH] using rev_ind; intros j Hj Hlast.
  - done.
  - change (NodesGet (NodesSet me e0 l0) e = Ok l). rewrite NodesGet_snoc.
    destruct (decide (j = length me)) as [->|Hne].
    + rewrite lookup_app_r, Nat.sub_diag in Hj by lia.
      cbn in Hj. inversion Hj; subst. by case_decide.
    + assert (j < length me)%nat as Hlt.
      { apply lookup_lt_Some in Hj. rewrite length_app in Hj. cbn in Hj. lia. }
      rewrite lookup_app_l in Hj by done.
      case_decide as He0.
      * exfalso. apply (Hlast (length me) e0 l0); [lia| |done].
        by rewrite lookup_app_r, Nat.sub_diag by lia.
      * apply (IH j Hj). intros j' e' l' Hj' Hl'.
        apply (Hlast j' e' l'); [done|].
        rewrite lookup_app_l; [done|]. by apply lookup_lt_Some in Hl'.
Qed.

Lemma solution_of_loaded nf ef s node c :
  load nf ef = Ok s ->
  ParameterSetGetNodeDP (solution_field s) node c = float_of_int 1000.
Proof.
  intros Hload. destruct (load_Ok nf ef s Hload) as (_ & _ & _ & _ & ->).
  unfold ParameterSetGetNodeDP. cbn. by rewrite lookup_empty.
Qed.

(** X12.  For input files that number their nodes and their elements
    1, 2, ... in the order of the lines, the two exported lists give the
    input back: record [i] of the node list is node [i + 1] with the three
    coordinates of its line and the solution value 1000.0, record [j] of
    the element list is element [j + 1] with the four node numbers of its
    line. *)
Theorem exported_lists_give_input_back nf ef s
    (x y z : nat -> float) (n1 n2 n3 n4 : nat -> Z) :
  load nf ef = Ok s ->
  (forall i, (i < Z.to_nat (NumberOfNodesGet s))%nat ->
     parse_node_line (nth_line (S i) nf)
       = Some (Z.of_nat i + 1, x i, y i, z i)) ->
  (forall j, (j < Z.to_nat (NumberOfElementsGet s))%nat ->
     parse_elem_line (nth_line (S j) ef)
       = Some (Z.of_nat j + 1, [n1 j; n2 j; n3 j; n4 j])) ->
  build_nodes_list s
    = Ok ((fun i => [VInt (Z.of_nat i + 1); VFloat (x i); VFloat (y i);
                     VFloat (z i); VFloat (float_of_int 1000)])
          <$> seq 0 (Z.to_nat (NumberOfNodesGet s))) /\
  build_elements_list s
    = Ok ((fun j => [Z.of_nat j + 1; n1 j; n2 j; n3 j; n4 j])
          <$> seq 0 (Z.to_nat (NumberOfElementsGet s))).
Proof.
  intros Hload Hnodes Helems.
  destruct (load_Ok nf ef s Hload) as (Hnd & Hed & Hme & Hgeo & _).
  unfold NumberOfNodesGet, NumberOfElementsGet in *.
  pose proof (read_node_file_Ok nf _ Hnd) as (a & b & _ & _ & _ & Hrows).
  split.
  - rewrite build_nodes_list_spec. f_equal.
    apply list_fmap_ext. intros i k Hk.
    apply lookup_seq in Hk as [-> Hi]. cbn [Nat.add] in Hi |- *.
    unfold node_record. rewrite (solution_of_loaded nf ef) by done.
    destruct (proj1 (node_row_done_parse _ _ _ _ _) (Hrows i Hi))
      as (r & Hr & Hn & Hc & _).
    rewrite <- nth_line_S, Hnodes in Hr by done. inversion Hr; subst r.
    assert (geometry_set (NodeCoords (node_input s))
              (Z.to_nat (num_nodes (node_input s))) (geometric_field s))
      as Hset.
    { apply (set_geometry_in_order nf); [done..|]. intros i' Hi'.
      destruct (proj1 (node_row_done_parse _ _ _ _ _) (Hrows i' Hi'))
        as (r' & Hr' & Hn' & _).
      rewrite <- nth_line_S, Hnodes in Hr' by done. inversion Hr'; subst r'.
      by apply (load2_Ok _ i' 0 _ _ Hn'). }
    destruct (Hset i (x i) (y i) (z i) _ Hi Hc) as (-> & -> & ->). done.
  - destruct (define_elements_Ok ef _ _ Hed Hme) as [Hlen Hcalls].
    assert (forall j, (j < Z.to_nat (num_elements (elem_input s)))%nat ->
              meshElements s !! j
              = Some (Z.of_nat j + 1, [n1 j; n2 j; n3 j; n4 j])) as Hlook.
    { intros j Hj.
      destruct (Hcalls j Hj) as (t0 & t1 & t2 & t3 & t4 & e & m1 & m2 & m3 & m4
                                 & Hsp & ? & ? & ? & ? & ? & ->).
      assert (parse_elem_line (nth_line (S j) ef)
              = Some (e, [m1; m2; m3; m4])) as Hp.
      { apply parse_elem_line_Some.
        exists t0, t1, t2, t3, t4, e, m1, m2, m3, m4.
        by rewrite nth_line_S. }
      rewrite Helems in Hp by done. by inversion Hp. }
    unfold build_elements_list. apply fill_loop.
    + by rewrite length_replicate.
    + intros j Hj. apply element_record_spec; [|done].
      apply (NodesGet_lookup _ j); [by apply Hlook|].
      intros j' e' l' Hj' Hl'.
      assert (j' < Z.to_nat (num_elements (elem_input s)))%nat as Hlt.
      { rewrite <- Hlen. by apply lookup_lt_Some in Hl'. }
      rewrite Hlook in Hl' by done. inversion Hl'; subst. lia.
Qed.

(** X13.  On a mesh of fewer than five nodes the list of nodes is built
    and cell 21 raises [IndexError]. *)
Theorem numpy_export_needs_five_nodes (s : session) :
  NumberOfNodesGet s < 5 ->
  exists nodes_list,
    build_nodes_list s = Ok nodes_list /\
    numpy_export nodes_list = Raise IndexError.
Proof.
  intros Hn. eexists. split; [apply build_nodes_list_spec|].
  unfold numpy_export, index.
  destruct (Z.to_nat (NumberOfNodesGet s)) as [|[|[|[|[|n]]]]] eqn:Hc;
    [done..|lia].
Qed.

Lemma vtk_export_Ok s el v :
  vtk_export s el = Ok v ->
  points v = np_array2 (NodeCoords (node_input s)) /\
  exists sol, solution_field_nodes s = Ok sol /\
              point_data v = [("solution", sol)].
Proof.
  unfold vtk_export. destruct (cells_array el); [|done]. cbn [rbind].
  destruct (solution_field_nodes s) as [sol|]; [|done]. cbn.
  intros [= <-]. eauto.
Qed.

(** X15.  In the VTK export of a loaded mesh, row [i] of the points array
    handed to meshio holds the three coordinates of line [i + 1] of the
    node file, whatever node number that line carries, followed by 0.0 up
    to the declared dimension. *)
Theorem vtk_points_follow_the_lines nf ef s el v i :
  load nf ef = Ok s ->
  vtk_export s el = Ok v ->
  (i < Z.to_nat (NumberOfNodesGet s))%nat ->
  exists id x y z,
    parse_node_line (nth_line (S i) nf) = Some (id, x, y, z) /\
    points v !! i
      = Some (VFloat x :: VFloat y :: VFloat z
              :: replicate (Z.to_nat (num_coords (node_input s)) - 3)
                   (VFloat (float_of_int 0))).
Proof.
  intros Hload Hv Hi. destruct (load_Ok nf ef s Hload) as (Hnd & _).
  apply vtk_export_Ok in Hv as [-> _].
  pose proof (read_node_file_Ok nf _ Hnd) as (a & b & _ & _ & _ & Hrows).
  destruct (proj1 (node_row_done_parse _ _ _ _ _) (Hrows i Hi))
    as ([[[id x] y] z] & Hr & _ & Hc & _).
  exists id, x, y, z. split; [by rewrite nth_line_S|].
  pose proof (no_str_in_coords nf _ Hnd) as Hstr.
  assert (existsb is_float (List.concat (NodeCoords (node_input s))) = true)
    as Hfl.
  { apply existsb_exists. exists (VFloat x). split; [|done].
    apply in_concat. eexists. split.
    - apply list_elem_of_In, list_elem_of_lookup. eauto.
    - cbn. by left. }
  unfold np_array2. rewrite list_lookup_fmap, Hc. cbn. f_equal.
  rewrite !np_cast_float by done. f_equal. f_equal. f_equal.
  rewrite fmap_replicate. f_equal.
  unfold np_cast. by rewrite Hstr, Hfl.
Qed.

(** X16.  In the VTK export of a loaded mesh the solution array holds the
    value 1000.0 the solution field was initialised with, once per
    node: no cell of the notebook writes the solution field. *)
Theorem vtk_solution_is_the_initial_value nf ef s el v :
  load nf ef = Ok s ->
  vtk_export s el = Ok v ->
  point_data v
    = [("solution",
        replicate (Z.to_nat (NumberOfNodesGet s)) (float_of_int 1000))].
Proof.
  intros Hload Hv. apply vtk_export_Ok in Hv as (_ & sol & Hsol & ->).
  pose proof (solution_field_nodes_Ok s sol Hsol) as Hn.
  rewrite (solution_field_nodes_spec s Hn) in Hsol. inversion Hsol; subst sol.
  do 2 f_equal. apply list_eq. intros i.
  rewrite list_lookup_fmap.
  destruct (decide (i < Z.to_nat (NumberOfNodesGet s))%nat) as [Hi|Hi].
  - rewrite lookup_seq_lt, lookup_replicate_2 by lia. cbn.
    by rewrite (solution_of_loaded nf ef).
  - rewrite lookup_seq_ge by lia. symmetry. apply lookup_replicate_None. lia.
Qed.

End LoadedExports.

(** ** The element reader and the rest of its file *)

Section ElemReaderRest.
Context `{PyFloat}.
Import PyStr PyStrFacts.

Lemma read_elem_line_same_line i (index map : table) g g' :
  (readline g).1 = (readline g').1 ->
  (exists e, read_elem_line i (index, map, g) = Raise e /\
             read_elem_line i (index, map, g') = Raise e) \/
  (exists index' map',
     read_elem_line i (index, map, g) = Ok (index', map', (readline g).2) /\
     read_elem_line i (index, map, g')
       = Ok (index', map', (readline g').2)).
Proof.
  unfold read_elem_line.
  destruct (readline g) as [l r], (readline g') as [l' r']. cbn [fst snd].
  intros <-.
  destruct (split l) as [|t0 [|t1 [|t2 [|t3 [|t4 [|]]]]]];
    try (left; by eauto).
  repeat match goal with
         | |- context [rbind ?m _] =>
             destruct m; cbn [rbind]; [|left; by eauto]
         end.
  right. eauto.
Qed.

Lemma elem_loop_same_lines count i (index map : table) g g' :
  (forall k, (k < count)%nat -> nth_line k g = nth_line k g') ->
  tables_of (for_range count i read_elem_line (index, map, g))
  = tables_of (for_range count i read_elem_line (index, map, g')).
Proof.
  revert i index map g g'.
  induction count as [|count IH]; intros i index map g g' Hl; [done|].
  cbn [for_range].
  destruct (read_elem_line_same_line i index map g g')
    as [(e & -> & ->)|(index' & map' & -> & ->)].
  - apply (Hl 0%nat). lia.
  - done.
  - cbn [rbind]. apply IH. intros k Hk.
    rewrite <- !nth_line_S. apply Hl. lia.
Qed.

(** X17.  The element reader stops after the declared lines: two files
    with the same header line and the same declared lines are read alike,
    whatever follows. *)
Theorem elem_reader_ignores_the_rest f f' n k a rest :
  read_elem_header f = Ok (n, k, a, rest) ->
  (forall j, (j <= Z.to_nat n)%nat -> nth_line j f' = nth_line j f) ->
  read_elem_file f' = read_elem_file f.
Proof.
  intros Hh Hl.
  assert (read_elem_header f' = Ok (n, k, a, (readline f').2)) as Hh'.
  { pose proof (Hl 0%nat ltac:(lia)) as H0. rewrite !nth_line_0 in H0.
    revert Hh. unfold read_elem_header.
    destruct (readline f) as [l r], (readline f') as [l' r'].
    cbn [fst snd] in *. subst l'.
    destruct (split l) as [|t0 [|t1 [|t2 [|]]]]; try done.
    destruct (int_of_str t0); [|done]. destruct (int_of_str t1); [|done].
    destruct (int_of_str t2); [|done].
    cbn. by intros [= -> -> -> _]. }
  pose proof (read_elem_header_inv _ _ _ _ _ Hh) as ->.
  unfold read_elem_file. rewrite Hh, Hh'. cbn [rbind].
  pose proof (elem_loop_same_lines (Z.to_nat n) 0 (zeros n 1)
                (zeros n (k + a)) (readline f').2 (readline f).2) as Hsame.
  assert (forall j, (j < Z.to_nat n)%nat ->
            nth_line j (readline f').2 = nth_line j (readline f).2) as Hl'.
  { intros j Hj. rewrite <- !nth_line_S. apply Hl. lia. }
  specialize (Hsame Hl').
  destruct (for_range _ _ _ (_, _, (readline f').2)) as [[[u v] w]|e1];
    destruct (for_range _ _ _ (_, _, (readline f).2)) as [[[u' v'] w']|e2];
    cbn in Hsame |- *; by inversion Hsame.
Qed.

End ElemReaderRest.

(** ** The text of the exported element file *)

Section ElementText.
Context `{PyFloat}.
Import PyStr PyStrFacts.

Lemma no_newline_app a b :
  no_newline (a ++ b) = no_newline a && no_newline b.
Proof.
  induction a as [|c a IH]; [done|].
  change (no_newline (String c (a ++ b))
          = no_newline (String c a) && no_newline b).
  cbn [no_newline]. by rewrite IH, andb_assoc.
Qed.

Lemma no_newline_uint d : no_newline (NilEmpty.string_of_uint d) = true.
Proof. induction d; cbn; done. Qed.

Lemma no_newline_str_of_int n : no_newline (str_of_int n) = true.
Proof.
  unfold str_of_int, NilZero.string_of_int, NilZero.string_of_uint.
  destruct (Z.to_int n) as [d|d]; destruct d; cbn [no_newline];
    try done; cbn; apply no_newline_uint.
Qed.

Lemma no_newline_join (l : list string) :
  Forall (fun s => no_newline s = true) l -> no_newline (join ", " l) = true.
Proof.
  induction 1 as [|s l Hs Hl IH]; [done|]. cbn [join].
  destruct l as [|s' l']; [done|].
  by rewrite !no_newline_app, Hs, IH.
Qed.

Lemma no_newline_int_row (row : list Z) :
  no_newline (str_list (VInt <$> row)) = true.
Proof.
  unfold str_list. rewrite !no_newline_app, no_newline_join; [done|].
  rewrite <- list_fmap_compose. apply Forall_fmap, Forall_forall.
  intros n _. apply no_newline_str_of_int.
Qed.

Lemma readline_one_line s r :
  no_newline s = true ->
  readline (s ++ String newline r) = (s ++ String newline "", r).
Proof.
  induction s as [|c s IH]; [done|]. cbn [no_newline].
  intros [Hc Hs]%andb_true_iff. apply negb_true_iff in Hc.
  change (readline (String c (s ++ String newline r))
          = (String c (s ++ String newline ""), r)).
  cbn [readline]. by rewrite Hc, IH.
Qed.

Lemma line_count_one_line s r :
  no_newline s = true ->
  line_count (s ++ String newline r) = S (line_count r).
Proof.
  induction s as [|c s IH]; [done|]. cbn [no_newline].
  intros [Hc Hs]%andb_true_iff. apply negb_true_iff in Hc.
  change (line_count (String c (s ++ String newline r)) = S (line_count r)).
  cbn [line_count]. rewrite Hc, <- IH by done.
  by destruct s.
Qed.

Lemma elem_file_out_cons row (el : list (list Z)) :
  elem_file_out (row :: el)
    = str_list (VInt <$> row) ++ String newline (elem_file_out el).
Proof.
  unfold elem_file_out, list_file. cbn [fmap list_fmap writelines].
  by rewrite append_assoc.
Qed.

(** X18.  The exported element file holds one line per record of the
    list of elements, and line [j] is the text Python prints for record
    [j], followed by a line end. *)
Theorem exported_element_file_lines (el : list (list Z)) j row :
  el !! j = Some row ->
  line_count (elem_file_out el) = length el /\
  nth_line j (elem_file_out el)
    = str_list (VInt <$> row) ++ String newline "".
Proof.
  intros Hj. split.
  - clear Hj. induction el as [|r el IH]; [done|].
    rewrite elem_file_out_cons, line_count_one_line, IH; [done|].
    apply no_newline_int_row.
  - revert j Hj. induction el as [|r el IH]; intros j Hj; [done|].
    rewrite elem_file_out_cons. destruct j as [|j].
    + inversion Hj; subst r.
      rewrite nth_line_0, readline_one_line; [done|].
      apply no_newline_int_row.
    + rewrite nth_line_S, readline_one_line by apply no_newline_int_row.
      by apply IH.
Qed.

End ElementText.

(** ** The notebook as a whole *)

Section Whole.
Context `{PyFloat}.

(** X19.  The notebook runs to its end only on a mesh that loads and has
    at least five nodes and at least one element. *)
Theorem notebook_needs_five_nodes_and_an_element nf ef out :
  notebook nf ef = Ok out ->
  exists s, load nf ef = Ok s /\
            5 <= NumberOfNodesGet s /\ 0 < NumberOfElementsGet s.
Proof.
  unfold notebook. intros Hrun.
  destruct (load nf ef) as [s|] eqn:Hload; [|done]. cbn [rbind] in Hrun.
  exists s. split; [done|].
  rewrite build_nodes_list_spec in Hrun. cbn [rbind] in Hrun.
  destruct (build_elements_list s) as [el|] eqn:Hel; [|done].
  cbn [rbind] in Hrun. split.
  - destruct (decide (5 <= NumberOfNodesGet s)) as [Hn|Hn]; [done|]. exfalso.
    unfold numpy_export, index in Hrun.
    destruct (Z.to_nat (NumberOfNodesGet s)) as [|[|[|[|[|n]]]]] eqn:Hc;
      [done..|lia].
  - destruct (numpy_export _); [|done]. cbn [rbind] in Hrun.
    destruct (decide (0 < NumberOfElementsGet s)) as [Hm|Hm]; [done|]. exfalso.
    destruct (build_elements_list_Ok s el Hel) as [Hlen _].
    replace (Z.to_nat (NumberOfElementsGet s)) with 0%nat in Hlen by lia.
    destruct el; [|done]. done.
Qed.

End Whole.

(** * The properties on the sample meshes *)

Import DecimalFloat Samples.

(** C1, as stated, fails on the unit tetrahedron: the mesh loads and is
    exported, and loading the exported files raises [ValueError]. *)
Lemma roundtrip_fails_on_tetrahedron :
  text_export tetra_nodes tetra_elems
    = Ok ("[1, 0.0, 0.0, 0.0, 1000.0]
[2, 1.0, 0.0, 0.0, 1000.0]
[3, 0.0, 1.0, 0.0, 1000.0]
[4, 0.0, 0.0, 1.0, 1000.0]
", "[1, 1, 2, 3, 4]
") /\
  load "[1, 0.0, 0.0, 0.0, 1000.0]
[2, 1.0, 0.0, 0.0, 1000.0]
[3, 0.0, 1.0, 0.0, 1000.0]
[4, 0.0, 0.0, 1.0, 1000.0]
" "[1, 1, 2, 3, 4]
" = Raise ValueError.
Proof. split; reflexivity. Qed.

(** C2, as stated, fails on a header that declares ten nodes before nine
    lines: the exception is [ValueError], not [TruncatedFileError]. *)
Lemma truncated_file_raises_ValueError :
  read_node_header truncated_nodes
    = Ok (10, 3, 0, 0, PyStr.skip_lines 1 truncated_nodes) /\
  PyStr.line_count (PyStr.skip_lines 1 truncated_nodes) = 9%nat /\
  read_node_file truncated_nodes = Raise ValueError /\
  read_node_file truncated_nodes <> Raise TruncatedFileError.
Proof. split_and!; try reflexivity. discriminate. Qed.

(** The theorem of C2 on that file. *)
Lemma truncated_node_file_raises_witness :
  exists e, read_node_file truncated_nodes = Raise e /\
            (e = ValueError \/ e = IndexError) /\
            (3 <= 3 -> e = ValueError).
Proof.
  apply (truncated_node_file_raises truncated_nodes 10 3 0 0
           (PyStr.skip_lines 1 truncated_nodes)).
  - reflexivity.
  - vm_compute; lia.
Defined.

(** C3, as stated, fails on a header that declares one attribute and a
    boundary marker: the line with the six tokens it announces is
    rejected with [ValueError], and the line with four tokens is read. *)
Lemma declared_token_count_not_used :
  read_node_header marked_nodes_six
    = Ok (1, 3, 1, 1, PyStr.skip_lines 1 marked_nodes_six) /\
  length (PyStr.split (PyStr.nth_line 1 marked_nodes_six)) = 6%nat /\
  read_node_file marked_nodes_six = Raise ValueError /\
  read_node_header marked_nodes_four
    = Ok (1, 3, 1, 1, PyStr.skip_lines 1 marked_nodes_four) /\
  length (PyStr.split (PyStr.nth_line 1 marked_nodes_four)) = 4%nat /\
  is_ok (read_node_file marked_nodes_four) = true.
Proof. split_and!; reflexivity. Qed.

(** The theorem of C3 on the file with the line of six tokens. *)
Lemma node_line_token_count_is_four_witness :
  exists e, read_node_file marked_nodes_six = Raise e /\
            (e = ValueError \/ e = IndexError).
Proof.
  apply (node_line_token_count_is_four marked_nodes_six 1 3 1 1
           (PyStr.skip_lines 1 marked_nodes_six) 0).
  - reflexivity.
  - vm_compute; lia.
  - vm_compute. discriminate.
Defined.

(** C10, as stated, fails on two files of dimension 2: a plane node line
    of three tokens raises [ValueError], not [IndexError], and a file
    that declares no node is read with success. *)
Lemma plane_file_without_IndexError :
  read_node_header plane_nodes
    = Ok (1, 2, 0, 0, PyStr.skip_lines 1 plane_nodes) /\
  read_node_file plane_nodes = Raise ValueError /\
  read_node_header plane_no_node
    = Ok (0, 2, 0, 0, PyStr.skip_lines 1 plane_no_node) /\
  read_node_file plane_no_node
    = Ok {| num_nodes := 0; num_coords := 2; num_attributes := 0;
            boundary_markers := 0; NodeNums := []; NodeCoords := [] |}.
Proof. split_and!; reflexivity. Qed.

(** The theorem of C10 on a plane file whose node line has a third
    coordinate. *)
Lemma plane_node_file_raises_witness :
  (forall nd k, read_node_file plane_nodes_four = Ok nd ->
     (k < Z.to_nat 1)%nat ->
     length (PyStr.split (PyStr.nth_line (S k) plane_nodes_four)) = 4%nat) /\
  (2 = 2 -> read_node_file plane_nodes_four = Raise IndexError).
Proof.
  apply (plane_node_file_raises plane_nodes_four 1 2 0 0
           (PyStr.skip_lines 1 plane_nodes_four)).
  - reflexivity.
  - lia.
Defined.

(** C4, as stated, fails on an element that names node 99 of a mesh of
    four nodes: both files are read, the node list with 99 in it is
    passed to [NodesSet], and no cell of the notebook raises; refusing
    the node is left to the library. *)
Lemma dangling_reference_loads :
  read_node_file tetra_nodes = Ok (node_input dangling_session) /\
  NodeNums (node_input dangling_session)
    = [[VInt 1; VInt 0]; [VInt 2; VInt 0]; [VInt 3; VInt 0]; [VInt 4; VInt 0]] /\
  read_elem_file dangling_elems = Ok (elem_input dangling_session) /\
  ElemMap (elem_input dangling_session)
    = [[VStr "1"; VStr "2"; VStr "3"; VStr "99"]] /\
  define_elements (elem_input dangling_session) = Ok [(1, [1; 2; 3; 99])] /\
  load tetra_nodes dangling_elems = Ok dangling_session /\
  load tetra_nodes dangling_elems <> Raise DanglingNodeReferenceError.
Proof. split_and!; try reflexivity. discriminate. Qed.

(** The theorem of C4 on that element file. *)
Lemma element_lines_handed_as_written_witness :
  exists t0 t1 t2 t3 t4 e n1 n2 n3 n4,
    PyStr.split (PyStr.nth_line 1 dangling_elems) = [t0; t1; t2; t3; t4] /\
    PyStr.int_of_str t0 = Some e /\
    PyStr.int_of_str t1 = Some n1 /\ PyStr.int_of_str t2 = Some n2 /\
    PyStr.int_of_str t3 = Some n3 /\ PyStr.int_of_str t4 = Some n4 /\
    meshElements dangling_session !! 0%nat = Some (e, [n1; n2; n3; n4]).
Proof.
  apply (element_lines_handed_as_written tetra_nodes dangling_elems
           dangling_session 0).
  - reflexivity.
  - vm_compute; lia.
Defined.

(** C5, as stated, fails on the unit tetrahedron with two nodes of its
    element exchanged: the Jacobian determinant of the element is -1, the
    mesh loads, and the element is exported as it was given. *)
Lemma reversed_element_passes :
  load tetra_nodes tetra_elems_reversed = Ok reversed_session /\
  meshElements reversed_session = [(1, [1; 3; 2; 4])] /\
  int_coordinates reversed_session 1 = Ok (0, 0, 0) /\
  int_coordinates reversed_session 3 = Ok (0, 1, 0) /\
  int_coordinates reversed_session 2 = Ok (1, 0, 0) /\
  int_coordinates reversed_session 4 = Ok (0, 0, 1) /\
  jacobian_det (0, 0, 0) (0, 1, 0) (1, 0, 0) (0, 0, 1) = -1 /\
  text_export tetra_nodes tetra_elems_reversed
    = Ok ("[1, 0.0, 0.0, 0.0, 1000.0]
[2, 1.0, 0.0, 0.0, 1000.0]
[3, 0.0, 1.0, 0.0, 1000.0]
[4, 0.0, 0.0, 1.0, 1000.0]
", "[1, 1, 3, 2, 4]
") /\
  (do v <- vtk_of tetra_nodes tetra_elems_reversed ; Ok (cells v))
    = Ok [("tetra", [[0; 2; 1; 3]])].
Proof. split_and!; reflexivity. Qed.

(** The theorem of C5: the element file of the reversed element loads the
    same way with the unit tetrahedron, where the element is inverted,
    and with its mirror image, which declares the same nodes and where it
    is not. *)
Lemma load_ignores_coordinates_witness :
  exists s', load mirrored_nodes tetra_elems_reversed = Ok s' /\
             node_input s' = node_input mirrored_session /\
             meshElements s' = meshElements reversed_session.
Proof.
  apply (load_ignores_coordinates tetra_nodes mirrored_nodes
           tetra_elems_reversed reversed_session
           (node_input mirrored_session)).
  - reflexivity.
  - reflexivity.
  - reflexivity.
  - reflexivity.
Defined.

(** The whole notebook on the mesh of five nodes and two elements. *)
Example notebook_on_five_nodes :
  notebook five_nodes two_elems
    = Ok {| out_node_file := "[1, 0.0, 0.0, 0.0, 1000.0]
[2, 1.0, 0.0, 0.0, 1000.0]
[3, 0.0, 1.0, 0.0, 1000.0]
[4, 0.0, 0.0, 1.0, 1000.0]
[5, 1.0, 1.0, 1.0, 1000.0]
";
            out_elem_file := "[1, 1, 2, 3, 4]
[2, 2, 3, 4, 5]
";
            out_numpy :=
              [("CARDIOMYOCYTE_OUTPUT.x.npy",
                [VFloat "2.0"; VFloat "1.0"; VFloat "0.0"; VFloat "0.0";
                 VFloat "1000.0"]);
               ("CARDIOMYOCYTE_OUTPUT.y.npy",
                [VFloat "3.0"; VFloat "0.0"; VFloat "1.0"; VFloat "0.0";
                 VFloat "1000.0"]);
               ("CARDIOMYOCYTE_OUTPUT.z.npy",
                [VFloat "4.0"; VFloat "0.0"; VFloat "0.0"; VFloat "1.0";
                 VFloat "1000.0"]);
               ("CARDIOMYOCYTE_OUTPUT.sol.npy",
                [VFloat "5.0"; VFloat "1.0"; VFloat "1.0"; VFloat "1.0";
                 VFloat "1000.0"])];
            out_vtk :=
              {| points := [[VFloat "0.0"; VFloat "0.0"; VFloat "0.0"];
                            [VFloat "1.0"; VFloat "0.0"; VFloat "0.0"];
                            [VFloat "0.0"; VFloat "1.0"; VFloat "0.0"];
                            [VFloat "0.0"; VFloat "0.0"; VFloat "1.0"];
                            [VFloat "1.0"; VFloat "1.0"; VFloat "1.0"]];
                 cells := [("tetra", [[0; 1; 2; 3]; [1; 2; 3; 4]])];
                 point_data :=
                   [("solution",
                     ["1000.0"; "1000.0"; "1000.0"; "1000.0"; "1000.0"])] |}
         |}.
Proof. reflexivity. Qed.

(** On the unit tetrahedron the notebook stops in cell 21: the list of
    four records has no record of index 4. *)
Example notebook_on_tetrahedron :
  notebook tetra_nodes tetra_elems = Raise IndexError.
Proof. reflexivity. Qed.

(** C6, as stated, fails on a node file that lists node 2 before node 1:
    the cell array names node 1 by the index 0, and row 0 of the points
    array holds the coordinates (1, 0, 0) of node 2, not the coordinates
    (0, 0, 0) of node 1. *)
Lemma points_follow_file_order :
  load swapped_nodes tetra_elems = Ok swapped_session /\
  vtk_of swapped_nodes tetra_elems
    = Ok {| points := [[VFloat "1.0"; VFloat "0.0"; VFloat "0.0"];
                       [VFloat "0.0"; VFloat "0.0"; VFloat "0.0"];
                       [VFloat "0.0"; VFloat "1.0"; VFloat "0.0"];
                       [VFloat "0.0"; VFloat "0.0"; VFloat "1.0"]];
            cells := [("tetra", [[0; 1; 2; 3]])];
            point_data :=
              [("solution", ["1000.0"; "1000.0"; "1000.0"; "1000.0"])] |} /\
  ParameterSetGetNodeDP (geometric_field swapped_session) 1 1 = "0.0" /\
  ParameterSetGetNodeDP (geometric_field swapped_session) 1 2 = "0.0" /\
  ParameterSetGetNodeDP (geometric_field swapped_session) 1 3 = "0.0" /\
  ParameterSetGetNodeDP (geometric_field swapped_session) 2 1 = "1.0".
Proof. split_and!; reflexivity. Qed.

(** The theorem of C6 on the mesh of five nodes and two elements, whose
    node file numbers its lines 1 to 5. *)
Lemma vtk_arrays_aligned_witness :
  exists v ca,
    vtk_export five_session [[1; 1; 2; 3; 4]; [2; 2; 3; 4; 5]] = Ok v /\
    cells v = [("tetra", ca)] /\
    length ca = Z.to_nat (NumberOfElementsGet five_session) /\
    (forall j, (j < Z.to_nat (NumberOfElementsGet five_session))%nat ->
       exists nodes n0 n1 n2 n3,
         NodesGet (meshElements five_session) (Z.of_nat j + 1) = Ok nodes /\
         nodes !! 0%nat = Some n0 /\ nodes !! 1%nat = Some n1 /\
         nodes !! 2%nat = Some n2 /\ nodes !! 3%nat = Some n3 /\
         ca !! j = Some [n0 - 1; n1 - 1; n2 - 1; n3 - 1]) /\
    point_data v
      = [("solution",
          (fun i => ParameterSetGetNodeDP (solution_field five_session)
                      (Z.of_nat i + 1) 1)
          <$> seq 0 (Z.to_nat (NumberOfNodesGet five_session)))] /\
    length (points v) = Z.to_nat (NumberOfNodesGet five_session) /\
    (forall i, (i < Z.to_nat (NumberOfNodesGet five_session))%nat ->
       exists row,
         points v !! i = Some row /\
         row !! 0%nat
           = Some (VFloat (ParameterSetGetNodeDP
                             (geometric_field five_session)
                             (Z.of_nat i + 1) 1)) /\
         row !! 1%nat
           = Some (VFloat (ParameterSetGetNodeDP
                             (geometric_field five_session)
                             (Z.of_nat i + 1) 2)) /\
         row !! 2%nat
           = Some (VFloat (ParameterSetGetNodeDP
                             (geometric_field five_session)
                             (Z.of_nat i + 1) 3))).
Proof.
  destruct (vtk_arrays_aligned five_nodes two_elems five_session
              [[1; 1; 2; 3; 4]; [2; 2; 3; 4; 5]])
    as (v & ca & Hv & Hc & Hlen & Hcells & Hsol & Hpl & Hpts).
  - reflexivity.
  - reflexivity.
  - vm_compute. discriminate.
  - reflexivity.
  - exists v, ca. split_and!; [exact Hv|exact Hc|exact Hlen|exact Hcells
                              |exact Hsol|exact Hpl|].
    apply Hpts. intros i Hi. change (i < 5)%nat in Hi.
    destruct i as [|[|[|[|[|i]]]]]; try reflexivity. lia.
Defined.

(** The theorem of C7 on the mesh of five nodes and two elements. *)
Lemma export_builds_one_record_each_witness :
  exists nodes_list elements_list,
    build_nodes_list five_session = Ok nodes_list /\
    build_elements_list five_session = Ok elements_list /\
    nodes_list
      = [[VInt 1; VFloat "0.0"; VFloat "0.0"; VFloat "0.0"; VFloat "1000.0"];
         [VInt 2; VFloat "1.0"; VFloat "0.0"; VFloat "0.0"; VFloat "1000.0"];
         [VInt 3; VFloat "0.0"; VFloat "1.0"; VFloat "0.0"; VFloat "1000.0"];
         [VInt 4; VFloat "0.0"; VFloat "0.0"; VFloat "1.0"; VFloat "1000.0"];
         [VInt 5; VFloat "1.0"; VFloat "1.0"; VFloat "1.0"; VFloat "1000.0"]] /\
    elements_list = [[1; 1; 2; 3; 4]; [2; 2; 3; 4; 5]] /\
    node_file_out nodes_list
      = "[1, 0.0, 0.0, 0.0, 1000.0]
[2, 1.0, 0.0, 0.0, 1000.0]
[3, 0.0, 1.0, 0.0, 1000.0]
[4, 0.0, 0.0, 1.0, 1000.0]
[5, 1.0, 1.0, 1.0, 1000.0]
" /\
    elem_file_out elements_list = "[1, 1, 2, 3, 4]
[2, 2, 3, 4, 5]
".
Proof.
  apply (export_builds_one_record_each five_session
           (fun j => match j with O => 1 | _ => 2 end)
           (fun j => match j with O => 2 | _ => 3 end)
           (fun j => match j with O => 3 | _ => 4 end)
           (fun j => match j with O => 4 | _ => 5 end)).
  intros j Hj. change (j < 2)%nat in Hj.
  destruct j as [|[|j]]; [reflexivity..|lia].
Defined.

(** The theorem of C9 on the mesh of five nodes. *)
Lemma numpy_arrays_hold_whole_records_witness :
  exists nodes_list,
    build_nodes_list five_session = Ok nodes_list /\
    numpy_export nodes_list
      = Ok [("CARDIOMYOCYTE_OUTPUT.x.npy",
             [VFloat "2.0"; VFloat "1.0"; VFloat "0.0"; VFloat "0.0";
              VFloat "1000.0"]);
            ("CARDIOMYOCYTE_OUTPUT.y.npy",
             [VFloat "3.0"; VFloat "0.0"; VFloat "1.0"; VFloat "0.0";
              VFloat "1000.0"]);
            ("CARDIOMYOCYTE_OUTPUT.z.npy",
             [VFloat "4.0"; VFloat "0.0"; VFloat "0.0"; VFloat "1.0";
              VFloat "1000.0"]);
            ("CARDIOMYOCYTE_OUTPUT.sol.npy",
             [VFloat "5.0"; VFloat "1.0"; VFloat "1.0"; VFloat "1.0";
              VFloat "1000.0"])].
Proof.
  apply (numpy_arrays_hold_whole_records five_session).
  vm_compute. discriminate.
Defined.

(** * The further properties on the sample files *)

Import MoreSamples.

(** X1 on the file of dimension 4. *)
Lemma node_file_read_in_full_witness :
  read_node_file wide_nodes = Ok wide_node_data.
Proof.
  apply (node_file_read_in_full wide_nodes 4 4 1 1
           (PyStr.skip_lines 1 wide_nodes)
           (fun k => match k with
                     | 0%nat => (1, "0.0" : @float decimal_float, "0.0" : @float decimal_float, "0.0" : @float decimal_float)
                     | 1%nat => (2, "1.0" : @float decimal_float, "0.0" : @float decimal_float, "0.0" : @float decimal_float)
                     | 2%nat => (3, "0.0" : @float decimal_float, "1.0" : @float decimal_float, "0.0" : @float decimal_float)
                     | _ => (4, "0.0" : @float decimal_float, "0.0" : @float decimal_float, "1.0" : @float decimal_float)
                     end)).
  - reflexivity.
  - lia.
  - intros k Hk. change (k < 4)%nat in Hk.
    destruct k as [|[|[|[|k]]]]; [reflexivity..|lia].
Defined.

(** X2 on the same file. *)
Lemma node_file_read_only_if_witness :
  length (NodeNums wide_node_data) = Z.to_nat (num_nodes wide_node_data) /\
  length (NodeCoords wide_node_data) = Z.to_nat (num_nodes wide_node_data) /\
  (0 < num_nodes wide_node_data -> 3 <= num_coords wide_node_data) /\
  forall k, (k < Z.to_nat (num_nodes wide_node_data))%nat ->
    exists r,
      parse_node_line (PyStr.nth_line (S k) wide_nodes) = Some r /\
      NodeNums wide_node_data !! k = Some (node_nums_row r) /\
      NodeCoords wide_node_data !! k
        = Some (node_coords_row (num_coords wide_node_data) r) /\
      load2 (NodeNums wide_node_data) k 1 = Ok (VInt 0).
Proof.
  apply (node_file_read_only_if wide_nodes wide_node_data). reflexivity.
Defined.

(** X3: the line after the four declared lines changes nothing. *)
Lemma node_reader_ignores_the_rest_witness :
  read_node_file wide_nodes
    = read_node_file
        "4 4 1 1
1 0.0 0.0 0.0
2 1.0 0.0 0.0
3 0.0 1.0 0.0
4 0.0 0.0 1.0
".
Proof.
  apply (node_reader_ignores_the_rest _ wide_nodes 4 4 1 1
           "1 0.0 0.0 0.0
2 1.0 0.0 0.0
3 0.0 1.0 0.0
4 0.0 0.0 1.0
").
  - reflexivity.
  - intros k Hk. change (k <= 4)%nat in Hk.
    destruct k as [|[|[|[|[|k]]]]]; [reflexivity..|lia].
Defined.

(** X4 on the plane file whose line has a third coordinate. *)
Lemma node_reader_raises_witness :
  IndexError = ValueError \/
  (IndexError = IndexError /\
   exists n d a b rest,
     read_node_header plane_nodes_four = Ok (n, d, a, b, rest) /\
     0 < n /\ d < 3).
Proof.
  apply (node_reader_raises plane_nodes_four IndexError). reflexivity.
Defined.

(** X5 on the element line with tokens that are no integers. *)
Lemma elem_file_read_in_full_witness :
  read_elem_file odd_elems = Ok odd_elem_data.
Proof.
  apply (elem_file_read_in_full odd_elems 1 4 0
           (PyStr.skip_lines 1 odd_elems)).
  - reflexivity.
  - lia.
  - intros j Hj. change (j < 1)%nat in Hj.
    destruct j as [|j]; [reflexivity|lia].
Defined.

(** X6 on the same file. *)
Lemma elem_file_read_only_if_witness :
  length (Elemindex odd_elem_data) = Z.to_nat (num_elements odd_elem_data) /\
  length (ElemMap odd_elem_data) = Z.to_nat (num_elements odd_elem_data) /\
  (0 < num_elements odd_elem_data ->
   4 <= nodes_per_ele odd_elem_data + ele_attributes odd_elem_data) /\
  forall j, (j < Z.to_nat (num_elements odd_elem_data))%nat ->
    length (PyStr.split (PyStr.nth_line (S j) odd_elems)) = 5%nat /\
    Elemindex odd_elem_data !! j
      = Some (elem_index_row (PyStr.split (PyStr.nth_line (S j) odd_elems))) /\
    ElemMap odd_elem_data !! j
      = Some (elem_map_row
                (nodes_per_ele odd_elem_data + ele_attributes odd_elem_data)
                (PyStr.split (PyStr.nth_line (S j) odd_elems))).
Proof.
  apply (elem_file_read_only_if odd_elems odd_elem_data). reflexivity.
Defined.

(** X7 on the header that declares three nodes per element. *)
Lemma elem_reader_raises_witness :
  IndexError = ValueError \/
  (IndexError = IndexError /\
   exists n k a rest,
     read_elem_header narrow_elems = Ok (n, k, a, rest) /\
     0 < n /\ k + a < 4).
Proof.
  apply (elem_reader_raises narrow_elems IndexError). reflexivity.
Defined.

(** X8 on the file of two elements. *)
Lemma elements_defined_in_full_witness :
  define_elements two_elem_data = Ok [(1, [1; 2; 3; 4]); (2, [2; 3; 4; 5])].
Proof.
  apply (elements_defined_in_full two_elems two_elem_data
           (fun j => match j with
                     | 0%nat => (1, [1; 2; 3; 4])
                     | _ => (2, [2; 3; 4; 5])
                     end)).
  - reflexivity.
  - intros j Hj. change (j < 2)%nat in Hj.
    destruct j as [|[|j]]; [reflexivity..|lia].
Defined.

(** X9 on the element line with tokens that are no integers. *)
Lemma element_definition_raises_witness :
  ValueError = ValueError /\
  exists j, (j < Z.to_nat (num_elements odd_elem_data))%nat /\
            parse_elem_line (PyStr.nth_line (S j) odd_elems) = None.
Proof.
  apply (element_definition_raises odd_elems odd_elem_data ValueError).
  - reflexivity.
  - reflexivity.
Defined.

(** X10 on the file where node 1 comes twice and node 3 never. *)
Lemma geometry_of_the_last_line_witness :
  exists geo,
    set_geometry repeated_node_data = Ok geo /\
    forall node,
      (forall k x y z, (k < Z.to_nat (num_nodes repeated_node_data))%nat ->
         parse_node_line (PyStr.nth_line (S k) repeated_nodes)
           = Some (node, x, y, z) ->
         (forall k' x' y' z',
            (k < k' < Z.to_nat (num_nodes repeated_node_data))%nat ->
            parse_node_line (PyStr.nth_line (S k') repeated_nodes)
            <> Some (node, x', y', z')) ->
         ParameterSetGetNodeDP geo node 1 = x /\
         ParameterSetGetNodeDP geo node 2 = y /\
         ParameterSetGetNodeDP geo node 3 = z) /\
      ((forall k x y z, (k < Z.to_nat (num_nodes repeated_node_data))%nat ->
          parse_node_line (PyStr.nth_line (S k) repeated_nodes)
          <> Some (node, x, y, z)) ->
       forall c, ParameterSetGetNodeDP geo node c = float_of_int 0).
Proof.
  apply (geometry_of_the_last_line repeated_nodes repeated_node_data).
  reflexivity.
Defined.

(** The field that cell 13 leaves for that file: node 1 has the
    coordinates of its second line, node 3 has none. *)
Example geometry_of_repeated_nodes :
  (do geo <- set_geometry repeated_node_data ;
   Ok (ParameterSetGetNodeDP geo 1 1, ParameterSetGetNodeDP geo 2 1,
       ParameterSetGetNodeDP geo 3 1))
  = Ok ("5.0", "1.0", "0.0").
Proof. reflexivity. Qed.

(** X11 on the element line with tokens that are no integers. *)
Lemma load_raises_witness :
  load tetra_nodes odd_elems = Raise ValueError /\
  (ValueError = ValueError \/ ValueError = IndexError).
Proof.
  split; [reflexivity|].
  apply (load_raises tetra_nodes odd_elems ValueError). reflexivity.
Defined.

(** X12 on the mesh of five nodes and two elements. *)
Lemma exported_lists_give_input_back_witness :
  build_nodes_list five_session
    = Ok [[VInt 1; VFloat "0.0"; VFloat "0.0"; VFloat "0.0"; VFloat "1000.0"];
          [VInt 2; VFloat "1.0"; VFloat "0.0"; VFloat "0.0"; VFloat "1000.0"];
          [VInt 3; VFloat "0.0"; VFloat "1.0"; VFloat "0.0"; VFloat "1000.0"];
          [VInt 4; VFloat "0.0"; VFloat "0.0"; VFloat "1.0"; VFloat "1000.0"];
          [VInt 5; VFloat "1.0"; VFloat "1.0"; VFloat "1.0"; VFloat "1000.0"]] /\
  build_elements_list five_session = Ok [[1; 1; 2; 3; 4]; [2; 2; 3; 4; 5]].
Proof.
  apply (exported_lists_give_input_back five_nodes two_elems five_session
           (fun i => match i return @float decimal_float with
                     | 1%nat | 4%nat => "1.0" | _ => "0.0" end)
           (fun i => match i return @float decimal_float with
                     | 2%nat | 4%nat => "1.0" | _ => "0.0" end)
           (fun i => match i return @float decimal_float with
                     | 3%nat | 4%nat => "1.0" | _ => "0.0" end)
           (fun j => match j with 0%nat => 1 | _ => 2 end)
           (fun j => match j with 0%nat => 2 | _ => 3 end)
           (fun j => match j with 0%nat => 3 | _ => 4 end)
           (fun j => match j with 0%nat => 4 | _ => 5 end)).
  - reflexivity.
  - intros i Hi. change (i < 5)%nat in Hi.
    destruct i as [|[|[|[|[|i]]]]]; [reflexivity..|lia].
  - intros j Hj. change (j < 2)%nat in Hj.
    destruct j as [|[|j]]; [reflexivity..|lia].
Defined.

(** X13 on the unit tetrahedron. *)
Lemma numpy_export_needs_five_nodes_witness :
  exists nodes_list,
    build_nodes_list tetra_session = Ok nodes_list /\
    numpy_export nodes_list = Raise IndexError.
Proof.
  apply (numpy_export_needs_five_nodes tetra_session).
  vm_compute. reflexivity.
Defined.

(** X15 on the file of dimension 4, second line. *)
Lemma vtk_points_follow_the_lines_witness :
  exists id x y z,
    parse_node_line (PyStr.nth_line 2 wide_nodes) = Some (id, x, y, z) /\
    points (vtk_of_session wide_session) !! 1%nat
      = Some (VFloat x :: VFloat y :: VFloat z
              :: replicate (Z.to_nat (num_coords (node_input wide_session)) - 3)
                   (VFloat (float_of_int 0))).
Proof.
  apply (vtk_points_follow_the_lines wide_nodes tetra_elems wide_session
           [[1; 1; 2; 3; 4]] (vtk_of_session wide_session) 1).
  - reflexivity.
  - reflexivity.
  - vm_compute. lia.
Defined.

(** The points of that mesh: four columns, the fourth 0.0. *)
Example points_of_wide_nodes :
  points (vtk_of_session wide_session)
  = [[VFloat "0.0"; VFloat "0.0"; VFloat "0.0"; VFloat "0.0"];
     [VFloat "1.0"; VFloat "0.0"; VFloat "0.0"; VFloat "0.0"];
     [VFloat "0.0"; VFloat "1.0"; VFloat "0.0"; VFloat "0.0"];
     [VFloat "0.0"; VFloat "0.0"; VFloat "1.0"; VFloat "0.0"]].
Proof. reflexivity. Qed.

(** X16 on the unit tetrahedron. *)
Lemma vtk_solution_is_the_initial_value_witness :
  point_data (vtk_of_session tetra_session)
    = [("solution",
        replicate (Z.to_nat (NumberOfNodesGet tetra_session))
          (float_of_int 1000))].
Proof.
  apply (vtk_solution_is_the_initial_value tetra_nodes tetra_elems
           tetra_session [[1; 1; 2; 3; 4]] (vtk_of_session tetra_session)).
  - reflexivity.
  - reflexivity.
Defined.

(** On a node file that declares -1 nodes both readers and the loops
    run through without a turn for the nodes, and the VTK cell raises in
    [np.zeros(-1)]. *)
Example vtk_of_negative_node_count :
  is_ok (load negative_nodes tetra_elems) = true /\
  vtk_of negative_nodes tetra_elems = Raise ValueError.
Proof. split; reflexivity. Qed.

(** X17: the line after the declared element changes nothing. *)
Lemma elem_reader_ignores_the_rest_witness :
  read_elem_file tetra_elems_commented = read_elem_file tetra_elems.
Proof.
  apply (elem_reader_ignores_the_rest tetra_elems tetra_elems_commented
           1 4 0 (PyStr.skip_lines 1 tetra_elems)).
  - reflexivity.
  - intros j Hj. change (j <= 1)%nat in Hj.
    destruct j as [|[|j]]; [reflexivity..|lia].
Defined.

(** X18 on the list of two elements, second record. *)
Lemma exported_element_file_lines_witness :
  PyStr.line_count (elem_file_out [[1; 1; 2; 3; 4]; [2; 2; 3; 4; 5]])
    = 2%nat /\
  PyStr.nth_line 1 (elem_file_out [[1; 1; 2; 3; 4]; [2; 2; 3; 4; 5]])
    = "[2, 2, 3, 4, 5]
".
Proof.
  apply (exported_element_file_lines [[1; 1; 2; 3; 4]; [2; 2; 3; 4; 5]] 1
           [2; 2; 3; 4; 5]).
  reflexivity.
Defined.

(** X19 on the mesh of five nodes and two elements. *)
Lemma notebook_needs_five_nodes_and_an_element_witness :
  exists s, load five_nodes two_elems = Ok s /\
            5 <= NumberOfNodesGet s /\ 0 < NumberOfElementsGet s.
Proof.
  apply (notebook_needs_five_nodes_and_an_element five_nodes two_elems
           five_outputs).
  reflexivity.
Defined.
